(** * cs1816-demo: the Dongle driver (lib/Dongle.js)

    A shallow embedding of the notification-slot registry (watch, unwatch,
    superwatch, onStatus), of the transparent-UART write path (write,
    writeCharacteristic) and of the legacy command queue (__command,
    sendNextCommand, handleResponseTimeout, disconnect) of [class Dongle].

    The BLE stack (noble) and the messaging client (cs-modbus) are external:
    every primitive the driver calls on them is recorded in a log at the
    moment it is issued, and what they answer is read from an environment
    [Env], which may answer differently depending on everything issued so
    far, and may never answer at all. *)

From stdpp Require Import gmap strings list.
From Stdlib Require Import ZArith Lia.
From Stdlib Require Import Ascii.

Open Scope Z_scope.

(** ** JavaScript values and numbers *)

(** Identity of a JavaScript function passed as a callback. *)
Definition cbid := nat.

(** The values that are stored in the driver's tables or passed where the
    source tests [typeof] or [===]. *)
Inductive jsval :=
| JUndefined
| JNull
| JNum (z : Z)
| JFun (f : cbid)
| JTimer (t : nat).

#[global] Instance jsval_eq_dec : EqDecision jsval.
Proof. solve_decision. Defined.

(** [a === b] on the values above. *)
Definition strict_eq (a b : jsval) : bool := bool_decide (a = b).

(** ToInt32, the conversion applied to the operands of [>>] and [&]. *)
Definition ToInt32 (z : Z) : Z := (z + 2 ^ 31) mod 2 ^ 32 - 2 ^ 31.

(** [a >> n] for a shift count in 0..31. *)
Definition js_shr (a n : Z) : Z := Z.shiftr (ToInt32 a) n.

(** [a & b]. *)
Definition js_and (a b : Z) : Z := ToInt32 (Z.land (ToInt32 a) (ToInt32 b)).

(** ToNumber of a value put in an array that is turned into a Buffer; what
    is not a number becomes NaN (null becomes 0), and both are written as
    the byte 0. *)
Definition to_number (v : jsval) : Z :=
  match v with
  | JNum z => z
  | _ => 0
  end.

(** [Buffer.from(array)]: every entry is truncated to one byte. *)
Definition Buffer_from (l : list Z) : list Z := map (fun x => Z.land x 255) l.

(** ** Constants of Dongle.js *)

Definition SLOT_SUPERWATCH : Z := 0x10.

Definition OP_CONFIGURE : Z := 0.
Definition OP_KEYSWITCH : Z := 1.
Definition OP_WATCH : Z := 2.
Definition OP_UNWATCH : Z := 3.
Definition OP_UNWATCH_ALL : Z := 4.
Definition OP_SUPERWATCH : Z := 5.

(** A characteristic handle is identified by its UUID. *)
Definition characteristic := string.

Definition uuidStatus : list string :=
  [ "6765ed1f4de149e14771a14380c90006";
    "6765ed1f4de149e14771a14380c90007";
    "6765ed1f4de149e14771a14380c90008";
    "6765ed1f4de149e14771a14380c90009";
    "6765ed1f4de149e14771a14380c9000a";
    "6765ed1f4de149e14771a14380c9000b";
    "6765ed1f4de149e14771a14380c9000c";
    "6765ed1f4de149e14771a14380c9000d";
    "6765ed1f4de149e14771a14380c9000e";
    "6765ed1f4de149e14771a14380c9000f";
    "6765ed1f4de149e14771a14380c90010";
    "6765ed1f4de149e14771a14380c90011";
    "6765ed1f4de149e14771a14380c90012";
    "6765ed1f4de149e14771a14380c90013";
    "6765ed1f4de149e14771a14380c90014";
    "6765ed1f4de149e14771a14380c90015";
    "6765ed1f4de149e14771a14380c90016";
    "6765ed1f4de149e14771a14380c90017";
    "6765ed1f4de149e14771a14380c90018";
    "6765ed1f4de149e14771a14380c90019" ]%string.

Definition uuidSuperwatch : string := "6765ed1f4de149e14771a14380c9001a".
Definition uuidTx : string := "49535343884143f4a8d4ecbe34729bb3".
Definition uuidRx : string := "495353431e4d4bd9ba6123c647249616".

(** ** Errors, events, replies *)

(** What a promise is rejected with, or a callback is failed with. *)
Inductive error :=
| ErrorMsg (msg : string)      (* new Error(msg) *)
| ErrorText (msg : string)     (* a bare string used as the reason *)
| ErrException (code : Z)      (* new Error('Exception ' + code) *)
| ErrIssuing (op : Z)          (* the string 'Error issuing command ' + op *)
| TypeError                    (* a property read on null or undefined *)
| NoReason                     (* reject() without an argument *)
| Transport (code : Z).        (* an error object handed over by the BLE
                                  stack or by the messaging client *)

#[global] Instance error_eq_dec : EqDecision error.
Proof. solve_decision. Defined.

(** Everything the driver does that can be seen from outside, in the
    order in which it is issued. *)
Inductive event :=
| BleSubscribe (c : characteristic)
| BleUnsubscribe (c : characteristic)
| BleWrite (c : characteristic) (value : list Z)
| BleDisconnect
| MasterCommand (dest op : Z) (payload : list Z)
| WatcherCall (f : cbid) (data : list Z) (slot : Z)
| CommandCallback (f : cbid) (err : error)
| Emit (name : string) (payload : list Z)
| ConsoleLog (what : list Z)
| ConsoleError (msg : string).

#[global] Instance event_eq_dec : EqDecision event.
Proof. solve_decision. Defined.

(** The answer of the BLE stack to one primitive: its completion callback
    is called without an error, with an error, or never. *)
Inductive ble_reply :=
| BleOk
| BleErr (e : error)
| BleNever.

(** A response of the messaging client, as far as [command] reads it:
    [exceptionCode] (0 when absent) and [values]. *)
Record response := Response {
  exceptionCode : Z;
  values : option (list Z)
}.

(** What [onComplete(err, response)] is called with, if it is called. *)
Inductive command_reply :=
| CmdDone (err : option error) (resp : option response)
| CmdNever.

Record Env := {
  on_subscribe : list event -> characteristic -> ble_reply;
  on_unsubscribe : list event -> characteristic -> ble_reply;
  on_write : list event -> characteristic -> list Z -> ble_reply;
  on_disconnect : list event -> ble_reply;
  on_command : list event -> Z -> Z -> list Z -> command_reply
}.

(** ** The driver's state *)

(** An entry of [commandQueue], as pushed by [__command]. *)
Record Command := {
  command_bytes : list Z;        (* command  *)
  sequence : Z;
  responseTimer : jsval;
  timeout : Z;                   (* options.timeout *)
  callback : cbid
}.

(** The fields of a [Dongle] object that the modelled methods read or
    write, from the moment [inspectDevice] has created [watcherCb]. *)
Record Dongle := {
  numStatus : Z;
  id : Z;
  defaultTimeout : Z;            (* options.defaultTimeout *)
  peripheral : option string;    (* the peripheral's [state], or null *)
  connected : bool;
  deviceType : option string;
  controllerService : option string;
  rxCharacteristic : option characteristic;
  txCharacteristic : option characteristic;
  commandChar : option characteristic;
  superwatchChar : option characteristic;
  statusChar : gmap Z characteristic;
  watcherCb : gmap Z jsval;
  commandQueue : list Command;
  commandSequence : Z
}.

(** The dongle together with the part of the outside world it acts on:
    the set of characteristics with notifications switched on in the BLE
    stack, and the log of what has been issued. *)
Record World := {
  dongle : Dongle;
  subscribed : gset characteristic;
  log : list event
}.

Definition with_dongle (d : Dongle) (w : World) : World :=
  {| dongle := d; subscribed := subscribed w; log := log w |}.

Definition with_subscribed (s : gset characteristic) (w : World) : World :=
  {| dongle := dongle w; subscribed := s; log := log w |}.

(** Append one event to the log. *)
Definition emit_event (e : event) (w : World) : World :=
  {| dongle := dongle w; subscribed := subscribed w; log := log w ++ [e] |}.

Definition set_watcherCb (slot : Z) (v : jsval) (d : Dongle) : Dongle :=
  {| numStatus := numStatus d; id := id d; defaultTimeout := defaultTimeout d;
     peripheral := peripheral d; connected := connected d;
     deviceType := deviceType d; controllerService := controllerService d;
     rxCharacteristic := rxCharacteristic d;
     txCharacteristic := txCharacteristic d;
     commandChar := commandChar d; superwatchChar := superwatchChar d;
     statusChar := statusChar d;
     watcherCb := <[slot := v]> (watcherCb d);
     commandQueue := commandQueue d; commandSequence := commandSequence d |}.

Definition set_queue (q : list Command) (seq : Z) (d : Dongle) : Dongle :=
  {| numStatus := numStatus d; id := id d; defaultTimeout := defaultTimeout d;
     peripheral := peripheral d; connected := connected d;
     deviceType := deviceType d; controllerService := controllerService d;
     rxCharacteristic := rxCharacteristic d;
     txCharacteristic := txCharacteristic d;
     commandChar := commandChar d; superwatchChar := superwatchChar d;
     statusChar := statusChar d; watcherCb := watcherCb d;
     commandQueue := q; commandSequence := seq |}.

(** The assignments made by the callback of [peripheral.disconnect]. *)
Definition drop_connection (d : Dongle) : Dongle :=
  {| numStatus := numStatus d; id := id d; defaultTimeout := defaultTimeout d;
     peripheral := None; connected := false;
     deviceType := None; controllerService := None;
     rxCharacteristic := None;
     txCharacteristic := None;
     commandChar := commandChar d; superwatchChar := superwatchChar d;
     statusChar := statusChar d; watcherCb := watcherCb d;
     commandQueue := commandQueue d; commandSequence := commandSequence d |}.

(** [watcherCb[slot]]: a missing entry reads as [undefined]. *)
Definition read_watcherCb (d : Dongle) (slot : Z) : jsval :=
  default JUndefined (watcherCb d !! slot).

(** ** Promises *)

(** The state a promise ends in once nothing more can happen to it. *)
Inductive settled (A : Type) :=
| Resolved (a : A)
| Rejected (e : error)
| Pending.

Arguments Resolved {A} a.
Arguments Rejected {A} e.
Arguments Pending {A}.

(** An asynchronous method: it runs on a world and leaves a world and the
    final state of the promise it returned. *)
Definition promise (A : Type) := World -> settled A * World.

(** [p.then(f)] with no rejection handler. *)
Definition then_ {A B : Type} (p : promise A) (f : A -> promise B) : promise B :=
  fun w =>
    match p w with
    | (Resolved a, w') => f a w'
    | (Rejected e, w') => (Rejected e, w')
    | (Pending, w') => (Pending, w')
    end.

Notation "p >>> f" := (then_ p f) (at level 61, left associativity).

(** ** Methods of [class Dongle] *)

Section Methods.

Variable env : Env.

(** [isConnected()] *)
Definition isConnected (d : Dongle) : bool :=
  match peripheral d with
  | Some st => bool_decide (st = "connected"%string) && connected d
  | None => false
  end.

(** [subscribe(characteristic)]: the executor calls
    [characteristic.subscribe] without looking at the handle first. *)
Definition subscribe (c : option characteristic) : promise unit :=
  fun w =>
    match c with
    | None => (Rejected TypeError, w)
    | Some ch =>
        let w1 := emit_event (BleSubscribe ch) w in
        match on_subscribe env (log w) ch with
        | BleOk => (Resolved tt, with_subscribed ({[ch]} ∪ subscribed w1) w1)
        | BleErr _ =>
            (Rejected (ErrorMsg "Failed to subscribe to characteristic"), w1)
        | BleNever => (Pending, w1)
        end
    end.

(** [unsubscribe(characteristic)]: with no handle the promise is neither
    resolved nor rejected. *)
Definition unsubscribe (c : option characteristic) : promise unit :=
  fun w =>
    match c with
    | None => (Pending, emit_event (ConsoleError "Unknown characterstic") w)
    | Some ch =>
        let w1 := emit_event (BleUnsubscribe ch) w in
        match on_unsubscribe env (log w) ch with
        | BleOk => (Resolved tt, with_subscribed (subscribed w1 ∖ {[ch]}) w1)
        | BleErr _ =>
            (Rejected (ErrorMsg "Failed to unsubscribe characteristic"), w1)
        | BleNever => (Pending, w1)
        end
    end.

(** The [onComplete] handler installed by [command(dest, id, values)]. *)
Definition command_onComplete (op : Z) (err : option error)
    (resp : option response) : settled unit :=
  let err :=
    match resp with
    | Some r => if bool_decide (exceptionCode r = 0) then err
                else Some (ErrException (exceptionCode r))
    | None => err
    end in
  match err with
  | Some e => Rejected e
  | None =>
      match resp with
      | Some r =>
          match values r with
          | Some (0 :: _) => Resolved tt
          | _ => Rejected (ErrIssuing op)
          end
      | None => Pending   (* reading [response.values] throws in the handler *)
      end
  end.

(** [command(dest, id, values)] *)
Definition command (dest op : Z) (payload : list Z) : promise unit :=
  fun w =>
    let w1 := emit_event (MasterCommand dest op payload) w in
    match on_command env (log w) dest op payload with
    | CmdDone err resp => (command_onComplete op err resp, w1)
    | CmdNever => (Pending, w1)
    end.

(** The first lines of [watch]: the length may be left out. *)
Definition default_length (length cb : jsval) : jsval * jsval :=
  match length with
  | JFun _ => (JNum 1, length)
  | _ => (length, cb)
  end.

(** [watch(slot, id, address, length, cb)]; the parameter [id] of the
    source is [dev] here. *)
Definition watch (slot dev address : Z) (length cb : jsval) : promise unit :=
  fun w =>
    let '(length, cb) := default_length length cb in
    if slot <? numStatus (dongle w) then
      let w1 := with_dongle (set_watcherCb slot cb (dongle w)) w in
      (unsubscribe (statusChar (dongle w1) !! slot)
       >>> (fun _ w' =>
              command (id (dongle w')) OP_WATCH
                (Buffer_from [slot; dev; js_shr address 8;
                              js_and address 0xFF; to_number length]) w')
       >>> (fun _ w' => subscribe (statusChar (dongle w') !! slot) w')) w1
    else
      (Rejected (ErrorText "watch requested for invalid slot number"), w).

(** The array built by [superwatch] before it is turned into a Buffer. *)
Definition superwatch_commandArray (dev : Z) (addresses : list Z) : list Z :=
  [SLOT_SUPERWATCH; dev]
  ++ flat_map (fun address => [js_shr address 8; js_and address 0xFF]) addresses.

(** [superwatch(id, addresses, cb)]. The promise of [command] is dropped
    inside the second step, so the chain goes on whatever the dongle
    answers. *)
Definition superwatch (dev : Z) (addresses : list Z) (cb : jsval) : promise unit :=
  fun w =>
    let w1 := with_dongle (set_watcherCb SLOT_SUPERWATCH cb (dongle w)) w in
    let commandArray := superwatch_commandArray dev addresses in
    let w2 := emit_event (ConsoleLog commandArray) w1 in
    (unsubscribe (superwatchChar (dongle w2))
     >>> (fun _ w' =>
            (Resolved tt,
             snd (command (id (dongle w')) OP_SUPERWATCH
                    (Buffer_from commandArray) w')))
     >>> (fun _ w' => subscribe (superwatchChar (dongle w')) w')) w2.

(** [unwatch(slot)] *)
Definition unwatch (slot : Z) : promise unit :=
  fun w =>
    if slot <? numStatus (dongle w) then
      let w1 := with_dongle (set_watcherCb slot JNull (dongle w)) w in
      (unsubscribe (statusChar (dongle w1) !! slot)
       >>> (fun _ w' =>
              command (id (dongle w')) OP_UNWATCH (Buffer_from [slot]) w')) w1
    else
      (Rejected (ErrorText "unwatch requested for invalid slot number"), w).

(** [onStatus(slot, data)], bound to the 'data' event of [statusChar[slot]]
    by [inspectDevice]. *)
Definition onStatus (slot : Z) (data : list Z) (w : World) : World :=
  if slot <? numStatus (dongle w) then
    match read_watcherCb (dongle w) slot with
    | JFun f => emit_event (WatcherCall f data slot) w
    | _ => w
    end
  else w.

(** [writeCharacteristic(characteristic, value)]; a third argument, when
    one is passed, is not read. *)
Definition writeCharacteristic (c : option characteristic) (value : list Z)
    : promise unit :=
  fun w =>
    if isConnected (dongle w) then
      match c with
      | None => (Rejected TypeError, w)
      | Some ch =>
          let w1 := emit_event (BleWrite ch value) w in
          match on_write env (log w) ch value with
          | BleOk => (Resolved tt, w1)
          | BleErr e => (Rejected e, w1)
          | BleNever => (Pending, w1)
          end
      end
    else (Rejected NoReason, w).

Definition chunkSize : nat := 20.

(** The loop of [write]: one [writeCharacteristic] per pass, the promises
    collected in [writes]. [fuel] bounds the number of passes. *)
Fixpoint write_loop (fuel : nat) (tx : option characteristic) (data : list Z)
    (index : nat) (writes : list (settled unit)) (w : World)
    : list (settled unit) * World :=
  match fuel with
  | O => (writes, w)
  | S fuel' =>
      if bool_decide (index < length data)%nat then
        let chunk := take chunkSize (drop index data) in
        let '(p, w') := writeCharacteristic tx chunk w in
        write_loop fuel' tx data (index + chunkSize)%nat (writes ++ [p]) w'
      else (writes, w)
  end.

(** [Promise.all(writes)]: rejected as soon as one of them is, resolved
    when all are. *)
Fixpoint Promise_all (ps : list (settled unit)) : settled unit :=
  match ps with
  | [] => Resolved tt
  | Rejected e :: _ => Rejected e
  | Resolved _ :: rest => Promise_all rest
  | Pending :: rest =>
      match Promise_all rest with
      | Rejected e => Rejected e
      | _ => Pending
      end
  end.

(** [.then(function() {}).catch(function() {})] *)
Definition then_catch_nothing (p : settled unit) : settled unit :=
  match p with
  | Resolved _ => Resolved tt
  | Rejected _ => Resolved tt
  | Pending => Pending
  end.

(** The promise chain built inside [write]; it is not handed to anybody. *)
Definition write_chain (data : list Z) (w : World) : settled unit * World :=
  match txCharacteristic (dongle w) with
  | Some tx =>
      let '(writes, w') := write_loop (length data) (Some tx) data 0 [] w in
      (then_catch_nothing (Promise_all writes), w')
  | None => (Resolved tt, w)
  end.

(** [write(data)]: the value handed back to the caller is [undefined]. *)
Definition write (data : list Z) (w : World) : jsval * World :=
  (JUndefined, snd (write_chain data w)).

(** [disconnect()] *)
Definition disconnect : promise unit :=
  fun w =>
    match peripheral (dongle w) with
    | None => (Rejected TypeError, w)
    | Some _ =>
        let w1 := emit_event BleDisconnect w in
        match on_disconnect env (log w) with
        | BleNever => (Pending, w1)
        | BleErr e =>
            (Rejected e, with_dongle (drop_connection (dongle w1)) w1)
        | BleOk =>
            (Resolved tt,
             emit_event (Emit "disconnected" [])
               (with_dongle (drop_connection (dongle w1)) w1))
        end
    end.

(** [sendNextCommand()]. The function given to [writeCharacteristic] as a
    third argument is never called: neither of its branches runs, and
    [setTimeout] is not reached. The promise it returns is dropped. *)
Definition sendNextCommand (w : World) : World :=
  match commandQueue (dongle w) with
  | command :: _ =>
      let w1 := emit_event (Emit "sendCommand" (command_bytes command)) w in
      snd (writeCharacteristic (commandChar (dongle w1)) (command_bytes command) w1)
  | [] => w
  end.

(** [handleResponseTimeout(timer)] *)
Definition handleResponseTimeout (timer : jsval) (w : World) : World :=
  match commandQueue (dongle w) with
  | command :: rest =>
      if strict_eq (responseTimer command) timer then
        let w1 := emit_event (CommandCallback (callback command) (ErrorMsg "Timeout")) w in
        let w2 := with_dongle
                    (set_queue rest (commandSequence (dongle w1)) (dongle w1)) w1 in
        sendNextCommand w2
      else w
  | [] => w
  end.

(** [options.timeout || me.options.defaultTimeout] *)
Definition timeout_or_default (t : option Z) (d : Dongle) : Z :=
  match t with
  | Some z => if bool_decide (z = 0) then defaultTimeout d else z
  | None => defaultTimeout d
  end.

(** [__command(command, callback, options)] *)
Definition __command (command : list Z) (callback : cbid)
    (options_timeout : option Z) (w : World) : World :=
  let d := dongle w in
  let entry := {| command_bytes := command;
                  sequence := commandSequence d;
                  responseTimer := JNull;
                  timeout := timeout_or_default options_timeout d;
                  callback := callback |} in
  let q := commandQueue d ++ [entry] in
  let w1 := with_dongle (set_queue q (js_and (commandSequence d + 1) 0xFF) d) w in
  if bool_decide (length q = 1%nat) then sendNextCommand w1 else w1.

End Methods.

(** ** A dongle that has been connected and inspected *)

(** [_.findWhere(characteristics, { uuid: u })] *)
Definition findWhere (characteristics : list string) (u : string)
    : option characteristic :=
  if bool_decide (u ∈ characteristics) then Some u else None.

(** The first loop of [inspectDevice]: [statusChar[i]] for every [i] below
    [numStatus]; an entry that was not found reads as [undefined]. *)
Fixpoint inspect_statusChar (characteristics : list string) (i : Z)
    (uuids : list string) : gmap Z characteristic :=
  match uuids with
  | [] => ∅
  | u :: rest =>
      let m := inspect_statusChar characteristics (i + 1) rest in
      match findWhere characteristics u with
      | Some c => <[i := c]> m
      | None => m
      end
  end.

(** The second loop: [watcherCb[i] = null] where [statusChar[i]] exists. *)
Definition inspect_watcherCb (sc : gmap Z characteristic) : gmap Z jsval :=
  (fun _ => JNull) <$> sc.

(** The object left by the constructor, [connect] and [inspectDevice] on a
    peripheral that offers [characteristics] and whose product
    characteristic reads [product], when [connect] succeeds: the
    peripheral has the controller service and the product, serial, fault
    and UART characteristics that [inspectDevice] requires, and [product]
    is not empty. (Where one of these is missing [connect] rejects and
    leaves [connected] false.) [commandChar] is set to null by the
    constructor and is assigned nowhere else. *)
Definition ready_dongle (characteristics : list string) (product : string)
    : Dongle :=
  let sc := inspect_statusChar characteristics 0 uuidStatus in
  {| numStatus := Z.of_nat (length uuidStatus);
     id := 254;
     defaultTimeout := 10000;
     peripheral := Some "connected"%string;
     connected := true;
     deviceType := Some product;
     controllerService := Some "6765ed1f4de149e14771a14380c90000"%string;
     rxCharacteristic := findWhere characteristics uuidRx;
     txCharacteristic := findWhere characteristics uuidTx;
     commandChar := None;
     superwatchChar := findWhere characteristics uuidSuperwatch;
     statusChar := sc;
     watcherCb := inspect_watcherCb sc;
     commandQueue := [];
     commandSequence := 0 |}.

Definition ready_world (characteristics : list string) : World :=
  {| dongle := ready_dongle characteristics "CS1816";
     subscribed := ∅;
     log := [] |}.

(** A peripheral with every status characteristic, the superwatch
    characteristic and the two UART characteristics. *)
Definition all_characteristics : list string :=
  uuidStatus ++ [uuidSuperwatch; uuidTx; uuidRx].

(** ** Sample environments *)

(** Every primitive succeeds and the dongle answers every command with
    status 0. *)
Definition env_ok : Env :=
  {| on_subscribe := fun _ _ => BleOk;
     on_unsubscribe := fun _ _ => BleOk;
     on_write := fun _ _ _ => BleOk;
     on_disconnect := fun _ => BleOk;
     on_command := fun _ _ _ _ => CmdDone None (Some (Response 0 (Some [0]))) |}.

(** Nothing is ever answered. *)
Definition env_silent : Env :=
  {| on_subscribe := fun _ _ => BleNever;
     on_unsubscribe := fun _ _ => BleNever;
     on_write := fun _ _ _ => BleNever;
     on_disconnect := fun _ => BleNever;
     on_command := fun _ _ _ _ => CmdNever |}.

Definition is_BleWrite (e : event) : bool :=
  match e with
  | BleWrite _ _ => true
  | _ => false
  end.

(** As [env_ok], but the second write issued on any characteristic fails
    with the transport error [Transport 5]. *)
Definition env_second_write_fails : Env :=
  {| on_subscribe := fun _ _ => BleOk;
     on_unsubscribe := fun _ _ => BleOk;
     on_write := fun h _ _ =>
       if bool_decide (length (filter (fun e => is_BleWrite e = true) h) = 1%nat)
       then BleErr (Transport 5) else BleOk;
     on_disconnect := fun _ => BleOk;
     on_command := fun _ _ _ _ => CmdDone None (Some (Response 0 (Some [0]))) |}.

(** Modelled from the spec: the hardware maximum of addresses that one
    superwatch may carry ("up to a hardware-defined maximum (e.g. 25)").
    Dongle.js has no such constant. *)
Definition superwatch_max_addresses : nat := 25.

(** The bytes 0, 1, ..., n-1. *)
Definition bytes_upto (n : nat) : list Z := map Z.of_nat (seq 0 n).

(** ** The chunks of a buffer, apart from the writes *)

(** What the loop of [write] cuts out of [data] from [index] on. *)
Fixpoint chunks_from (fuel : nat) (data : list Z) (index : nat) : list (list Z) :=
  match fuel with
  | O => []
  | S fuel' =>
      if bool_decide (index < length data)%nat then
        take chunkSize (drop index data)
        :: chunks_from fuel' data (index + chunkSize)%nat
      else []
  end.

Definition chunks (data : list Z) : list (list Z) :=
  chunks_from (length data) data 0.

(** No entry of the command queue carries a timer. *)
Definition no_timer_armed (d : Dongle) : Prop :=
  Forall (fun c => responseTimer c = JNull) (commandQueue d).

(** The events that report a request callback being called. *)
Definition is_CommandCallback (e : event) : bool :=
  match e with
  | CommandCallback _ _ => true
  | _ => false
  end.

(** ** Watcher.js and the batch methods of [class Dongle] *)

Module Watcher.

(** An object built by [new Watcher(slot, id, address, length, cb)]. *)
Record t := Build {
  slot : Z;
  id : Z;
  address : Z;
  length : jsval;
  cb : jsval
}.

(** The constructor: as in [watch], the length may be left out. *)
Definition constructor (slot id address : Z) (length cb : jsval) : t :=
  let '(length, cb) := default_length length cb in
  {| slot := slot; id := id; address := address; length := length; cb := cb |}.

End Watcher.

(** The argument of [setWatchers]: one Watcher, or an array of them. *)
Inductive watchers_arg :=
| OneWatcher (watcher : Watcher.t)
| ManyWatchers (watchers : list Watcher.t).

Section BatchMethods.

Variable env : Env.

(** The five numbers that [setWatchers] pushes on its array [list] (here
    [entries]) for one watcher. *)
Definition watcher_entry (watcher : Watcher.t) : list Z :=
  [Watcher.slot watcher; Watcher.id watcher;
   js_shr (Watcher.address watcher) 8; js_and (Watcher.address watcher) 0xFF;
   to_number (Watcher.length watcher)].

(** The first [forEach] of [setWatchers]: the unsubscribe is issued, then
    the callback is stored, then the entry is pushed. *)
Fixpoint setWatchers_unsubscribe (watchers : list Watcher.t)
    (unsub : list (settled unit)) (entries : list Z) (w : World)
    : list (settled unit) * list Z * World :=
  match watchers with
  | [] => (unsub, entries, w)
  | watcher :: rest =>
      let '(p, w1) :=
        unsubscribe env (statusChar (dongle w) !! Watcher.slot watcher) w in
      let w2 := with_dongle
                  (set_watcherCb (Watcher.slot watcher) (Watcher.cb watcher)
                     (dongle w1)) w1 in
      setWatchers_unsubscribe rest (unsub ++ [p])
        (entries ++ watcher_entry watcher) w2
  end.

(** The second [forEach] of [setWatchers]. *)
Fixpoint setWatchers_subscribe (watchers : list Watcher.t)
    (sub : list (settled unit)) (w : World) : list (settled unit) * World :=
  match watchers with
  | [] => (sub, w)
  | watcher :: rest =>
      let '(p, w1) :=
        subscribe env (statusChar (dongle w) !! Watcher.slot watcher) w in
      setWatchers_subscribe rest (sub ++ [p]) w1
  end.

(** A promise of [subscribe] that was rejected before its executor
    returned. *)
Definition rejected_in_executor (p : settled unit) : bool :=
  match p with
  | Rejected TypeError => true
  | _ => false
  end.

(** [Promise.all(sub)] for the promises of [subscribe]. One that was
    rejected inside its executor (no handle: [TypeError]) is rejected
    before any that waits for the BLE stack; among those that wait, the
    BLE stack is taken to answer in the order it was asked. *)
Definition Promise_all_subscribed (sub : list (settled unit)) : settled unit :=
  if existsb rejected_in_executor sub then Rejected TypeError
  else Promise_all sub.

(** [setWatchers(watchers)] *)
Definition setWatchers (arg : watchers_arg) : promise unit :=
  fun w =>
    let watchers :=
      match arg with
      | OneWatcher watcher => [watcher]
      | ManyWatchers l => l
      end in
    let '(unsub, entries, w1) := setWatchers_unsubscribe watchers [] [] w in
    match Promise_all unsub with
    | Resolved _ =>
        (command env (id (dongle w1)) OP_WATCH (Buffer_from entries)
         >>> (fun _ w' =>
                let '(sub, w'') := setWatchers_subscribe watchers [] w' in
                (Promise_all_subscribed sub, w''))) w1
    | Rejected e => (Rejected e, w1)
    | Pending => (Pending, w1)
    end.

(** The [forEach] of [clearWatchers]; a watcher whose slot is not below
    [numStatus] is passed over. *)
Fixpoint clearWatchers_loop (watchers : list Watcher.t)
    (unsub : list (settled unit)) (entries : list Z) (w : World)
    : list (settled unit) * list Z * World :=
  match watchers with
  | [] => (unsub, entries, w)
  | watcher :: rest =>
      if Watcher.slot watcher <? numStatus (dongle w) then
        let w1 := with_dongle
                    (set_watcherCb (Watcher.slot watcher) JNull (dongle w)) w in
        let '(p, w2) :=
          unsubscribe env (statusChar (dongle w1) !! Watcher.slot watcher) w1 in
        clearWatchers_loop rest (unsub ++ [p])
          (entries ++ [Watcher.slot watcher]) w2
      else clearWatchers_loop rest unsub entries w
  end.

(** [clearWatchers(watchers)]: the promises in [unsub] are not awaited. *)
Definition clearWatchers (watchers : list Watcher.t) : promise unit :=
  fun w =>
    let '(_, entries, w1) := clearWatchers_loop watchers [] [] w in
    command env (id (dongle w1)) OP_UNWATCH (Buffer_from entries) w1.

End BatchMethods.

(** The assignments [me.watcherCb[watcher.slot] = watcher.cb] of
    [setWatchers], one watcher after the other. *)
Definition install_callbacks (watchers : list Watcher.t) (d : Dongle) : Dongle :=
  fold_left (fun d x => set_watcherCb (Watcher.slot x) (Watcher.cb x) d)
    watchers d.

(** The assignments [me.watcherCb[watcher.slot] = null] of
    [clearWatchers], one slot after the other. *)
Definition clear_callbacks (slots : list Z) (d : Dongle) : Dongle :=
  fold_left (fun d s => set_watcherCb s JNull d) slots d.

(** The events that an unsubscribe can leave in the log. *)
Definition unsubscribe_event (e : event) : Prop :=
  (exists c, e = BleUnsubscribe c) \/ e = ConsoleError "Unknown characterstic".

(** ** The handlers of the memory and object requests *)

(** A response of the messaging client as [readMemory], [writeMemory],
    [readObject] and [writeObject] read it: [exceptionCode] (0 when absent),
    [values] and [status] (absent when it is not a number). *)
Record data_response := DataResponse {
  data_exceptionCode : Z;
  data_values : option (list Z);
  data_status : option Z
}.

(** The first lines shared by every [onComplete] handler: an exception
    code in the response replaces whatever [err] was. *)
Definition exception_or_err (err : option error) (resp : option data_response)
    : option error :=
  match resp with
  | Some r => if bool_decide (data_exceptionCode r = 0) then err
              else Some (ErrException (data_exceptionCode r))
  | None => err
  end.

(** The handler of [readMemory] and of [readObject]: the promise is
    resolved with [response.values], which may be undefined. With neither
    an error nor a response the handler throws and the promise stays as it
    is. *)
Definition readMemory_onComplete (err : option error)
    (resp : option data_response) : settled (option (list Z)) :=
  match exception_or_err err resp with
  | Some e => Rejected e
  | None =>
      match resp with
      | Some r => Resolved (data_values r)
      | None => Pending
      end
  end.

(** The handler of [writeMemory] (and, up to the value it resolves with, of
    [writeObject]). *)
Definition writeMemory_onComplete (err : option error)
    (resp : option data_response) : settled unit :=
  match exception_or_err err resp with
  | Some e => Rejected e
  | None =>
      match resp with
      | Some r =>
          match data_status r with
          | Some 0 => Resolved tt
          | _ => Rejected (ErrorText "Error writing to device ")
          end
      | None => Pending
      end
  end.

(** ** The helpers of the demonstration scripts *)

(** [s.slice(-n)] for a count [n]: [-0] is [0], so with [n = 0] the whole
    string comes back. *)
Definition slice_from_end (n : nat) (s : list Ascii.ascii) : list Ascii.ascii :=
  match n with
  | O => s
  | _ => drop (length s - n)%nat s
  end.

(** [zeroPad(number, length)] of the test scripts, on the string that
    [number] is turned into by [pad + number]. *)
Definition zeroPad (number : list Ascii.ascii) (len : nat) : list Ascii.ascii :=
  let pad := replicate len "0"%char in
  slice_from_end (length pad) (pad ++ number).

(** ** More sample environments *)

(** The dongle answers every command with exception code 2. *)
Definition env_exception : Env :=
  {| on_subscribe := fun _ _ => BleOk;
     on_unsubscribe := fun _ _ => BleOk;
     on_write := fun _ _ _ => BleOk;
     on_disconnect := fun _ => BleOk;
     on_command := fun _ _ _ _ => CmdDone None (Some (Response 2 None)) |}.

(** The BLE stack refuses every unsubscribe with [Transport 3]. *)
Definition env_unsubscribe_fails : Env :=
  {| on_subscribe := fun _ _ => BleOk;
     on_unsubscribe := fun _ _ => BleErr (Transport 3);
     on_write := fun _ _ _ => BleOk;
     on_disconnect := fun _ => BleOk;
     on_command := fun _ _ _ _ => CmdDone None (Some (Response 0 (Some [0]))) |}.

(** As [env_ok], but an unsubscribe asked for after a subscribe has been
    issued is refused with [Transport 3]. *)
Definition is_BleSubscribe (e : event) : bool :=
  match e with
  | BleSubscribe _ => true
  | _ => false
  end.

Definition env_unsubscribe_fails_later : Env :=
  {| on_subscribe := fun _ _ => BleOk;
     on_unsubscribe := fun h _ =>
       if existsb is_BleSubscribe h then BleErr (Transport 3) else BleOk;
     on_write := fun _ _ _ => BleOk;
     on_disconnect := fun _ => BleOk;
     on_command := fun _ _ _ _ => CmdDone None (Some (Response 0 (Some [0]))) |}.

(** A peripheral with everything but the status characteristic of slot 5. *)
Definition characteristics_without_slot_5 : list string :=
  filter (fun u => u <> "6765ed1f4de149e14771a14380c9000b"%string)
    all_characteristics.

(** * Theorems *)

Example ready_numStatus : numStatus (ready_dongle all_characteristics "CS1816") = 20.
Proof. reflexivity. Qed.

Example ready_statusChar_0 :
  statusChar (dongle (ready_world all_characteristics)) !! 0
  = Some "6765ed1f4de149e14771a14380c90006"%string.
Proof. vm_compute. reflexivity. Qed.

Example watch_ok_log :
  log (snd (watch env_ok 0 1 0x005F (JNum 1) (JFun 1%nat)
              (ready_world all_characteristics)))
  = [BleUnsubscribe "6765ed1f4de149e14771a14380c90006";
     MasterCommand 254 2 [0; 1; 0; 0x5F; 1];
     BleSubscribe "6765ed1f4de149e14771a14380c90006"].
Proof. vm_compute. reflexivity. Qed.

(** ** What the primitives leave alone *)

Ltac split_cases :=
  repeat (simpl in *;
          match goal with
          | |- context [match ?x with _ => _ end] => destruct x eqn:?
          end);
  simpl in *.

Section Frames.

Variable env : Env.

Lemma subscribe_dongle c w : dongle (snd (subscribe env c w)) = dongle w.
Proof. unfold subscribe. split_cases; reflexivity. Qed.

Lemma unsubscribe_dongle c w : dongle (snd (unsubscribe env c w)) = dongle w.
Proof. unfold unsubscribe. split_cases; reflexivity. Qed.

Lemma command_dongle dest op payload w :
  dongle (snd (command env dest op payload w)) = dongle w.
Proof. unfold command. split_cases; reflexivity. Qed.

Lemma command_log dest op payload w :
  log (snd (command env dest op payload w))
  = log w ++ [MasterCommand dest op payload].
Proof. unfold command. split_cases; reflexivity. Qed.

Lemma command_subscribed dest op payload w :
  subscribed (snd (command env dest op payload w)) = subscribed w.
Proof. unfold command. split_cases; reflexivity. Qed.

Lemma writeCharacteristic_dongle c value w :
  dongle (snd (writeCharacteristic env c value w)) = dongle w.
Proof. unfold writeCharacteristic. split_cases; reflexivity. Qed.

(** A chain of [then] steps keeps the dongle when every step does. *)
Lemma then_dongle {A B : Type} (p : promise A) (f : A -> promise B) w :
  (forall w0, dongle (snd (p w0)) = dongle w0) ->
  (forall a w0, dongle (snd (f a w0)) = dongle w0) ->
  dongle (snd ((p >>> f) w)) = dongle w.
Proof.
  intros Hp Hf. unfold then_.
  specialize (Hp w). destruct (p w) as [[a|e|] w']; simpl in *; auto.
  rewrite Hf. exact Hp.
Qed.

(** [watch] on a slot below [numStatus] changes the dongle object in one
    place: the callback of that slot. *)
Lemma watch_dongle slot dev address length cb w :
  slot < numStatus (dongle w) ->
  dongle (snd (watch env slot dev address length cb w))
  = set_watcherCb slot (snd (default_length length cb)) (dongle w).
Proof.
  intros Hlt. unfold watch.
  destruct (default_length length cb) as [len' cb'] eqn:Hd. simpl.
  apply Z.ltb_lt in Hlt. rewrite Hlt.
  rewrite then_dongle; [reflexivity | |].
  - intros w0. apply then_dongle.
    + intros w1. apply unsubscribe_dongle.
    + intros _ w1. apply command_dongle.
  - intros _ w0. apply subscribe_dongle.
Qed.

Lemma unwatch_dongle slot w :
  slot < numStatus (dongle w) ->
  dongle (snd (unwatch env slot w)) = set_watcherCb slot JNull (dongle w).
Proof.
  intros Hlt. unfold unwatch.
  apply Z.ltb_lt in Hlt. rewrite Hlt.
  rewrite then_dongle; [reflexivity | |].
  - intros w0. apply unsubscribe_dongle.
  - intros _ w0. apply command_dongle.
Qed.

Lemma superwatch_dongle dev addresses cb w :
  dongle (snd (superwatch env dev addresses cb w))
  = set_watcherCb SLOT_SUPERWATCH cb (dongle w).
Proof.
  unfold superwatch.
  rewrite then_dongle; [reflexivity | |].
  - intros w0. apply then_dongle.
    + intros w1. apply unsubscribe_dongle.
    + intros _ w1. simpl. apply command_dongle.
  - intros _ w0. apply subscribe_dongle.
Qed.

Lemma read_set_watcherCb slot v d :
  read_watcherCb (set_watcherCb slot v d) slot = v.
Proof. unfold read_watcherCb. simpl. rewrite lookup_insert_eq. reflexivity. Qed.

Lemma read_set_watcherCb_ne slot slot' v d :
  slot <> slot' ->
  read_watcherCb (set_watcherCb slot v d) slot' = read_watcherCb d slot'.
Proof.
  intros Hne. unfold read_watcherCb. simpl.
  rewrite lookup_insert_ne by exact Hne. reflexivity.
Qed.

(** [onStatus] on a slot that holds a function calls it once, with the
    data and the slot, and does nothing else. *)
Lemma onStatus_function slot data f w :
  slot < numStatus (dongle w) ->
  read_watcherCb (dongle w) slot = JFun f ->
  onStatus slot data w = emit_event (WatcherCall f data slot) w.
Proof.
  intros Hlt Hcb. unfold onStatus.
  apply Z.ltb_lt in Hlt. rewrite Hlt, Hcb. reflexivity.
Qed.

(** [onStatus] on a slot that holds null does nothing. *)
Lemma onStatus_null slot data w :
  read_watcherCb (dongle w) slot = JNull ->
  onStatus slot data w = w.
Proof.
  intros Hcb. unfold onStatus. rewrite Hcb.
  destruct (slot <? numStatus (dongle w)); reflexivity.
Qed.

End Frames.

(** ** The slot registry: watch, unwatch, onStatus *)

(** C7. For every slot index [slot] that is not below [numStatus],
    [watch(slot, id, address, length, cb)] is rejected with the
    invalid-slot reason ('watch requested for invalid slot number') and
    leaves the whole world as it was: nothing is added to the log (no
    unsubscribe, no WATCH command, no subscribe) and the callback table,
    like every other field, is unchanged. *)
Theorem watch_invalid_slot env slot dev address length cb w :
  numStatus (dongle w) <= slot ->
  watch env slot dev address length cb w
  = (Rejected (ErrorText "watch requested for invalid slot number"), w).
Proof.
  intros Hge. unfold watch.
  destruct (default_length length cb) as [len' cb'].
  destruct (Z.ltb_spec slot (numStatus (dongle w))) as [Hlt|_]; [lia|].
  reflexivity.
Qed.

Lemma watch_invalid_slot_witness :
  numStatus (dongle (ready_world all_characteristics)) <= 20
  /\ watch env_ok 20 1 0x005F (JNum 1) (JFun 1%nat) (ready_world all_characteristics)
     = (Rejected (ErrorText "watch requested for invalid slot number"),
        ready_world all_characteristics).
Proof.
  split; [vm_compute; discriminate|].
  apply (watch_invalid_slot env_ok 20 1 0x005F (JNum 1) (JFun 1%nat)
           (ready_world all_characteristics)).
  vm_compute. discriminate.
Defined.



Lemma Buffer_from_byte (z : Z) : 0 <= z < 256 -> Z.land z 255 = z.
Proof.
  intros Hz. change 255 with (Z.ones 8).
  rewrite Z.land_ones by lia. apply Z.mod_small. exact Hz.
Qed.

(** C10. [watch(0, 1, 0x005F, 1, cb)] on a dongle whose slot 0 has its
    characteristic [c0], when the unsubscribe succeeds, the dongle answers
    the WATCH command with status 0 and the subscribe succeeds: the promise
    is resolved; what is issued is the unsubscribe of [c0], one WATCH
    command to the dongle with the five bytes [0, 1, 0x00, 0x5F, 1], and
    the subscribe of [c0], in that order; [c0] is left subscribed; and a
    later notification on slot 0 calls [cb] exactly once, with the payload
    (and the slot). *)
Theorem watch_slot0_scenario env cb c0 data vs w :
  0 < numStatus (dongle w) ->
  statusChar (dongle w) !! 0 = Some c0 ->
  on_unsubscribe env (log w) c0 = BleOk ->
  on_command env (log w ++ [BleUnsubscribe c0]) (id (dongle w)) OP_WATCH
    [0; 1; 0x00; 0x5F; 1]
  = CmdDone None (Some (Response 0 (Some (0 :: vs)))) ->
  on_subscribe env
    (log w ++ [BleUnsubscribe c0;
               MasterCommand (id (dongle w)) OP_WATCH [0; 1; 0x00; 0x5F; 1]]) c0
  = BleOk ->
  let r := watch env 0 1 0x005F (JNum 1) (JFun cb) w in
  fst r = Resolved tt
  /\ log (snd r)
     = log w ++ [BleUnsubscribe c0;
                 MasterCommand (id (dongle w)) OP_WATCH [0; 1; 0x00; 0x5F; 1];
                 BleSubscribe c0]
  /\ c0 ∈ subscribed (snd r)
  /\ log (onStatus 0 data (snd r)) = log (snd r) ++ [WatcherCall cb data 0].
Proof.
  intros Hlt Hc Hun Hcmd Hsub r.
  assert (Hd : dongle (snd r) = set_watcherCb 0 (JFun cb) (dongle w)).
  { subst r. rewrite watch_dongle by exact Hlt. reflexivity. }
  assert (Hrun : fst r = Resolved tt
                 /\ log (snd r)
                    = log w ++ [BleUnsubscribe c0;
                                MasterCommand (id (dongle w)) OP_WATCH
                                  [0; 1; 0x00; 0x5F; 1];
                                BleSubscribe c0]
                 /\ c0 ∈ subscribed (snd r)).
  { subst r. unfold watch. simpl default_length. cbv iota beta.
    apply Z.ltb_lt in Hlt. rewrite Hlt.
    change (Buffer_from [0; 1; js_shr 95 8; js_and 95 255; to_number (JNum 1)])
      with [0; 1; 0; 95; 1].
    unfold then_, unsubscribe, command, subscribe. simpl.
    rewrite Hc, Hun. simpl.
    rewrite Hcmd. simpl.
    rewrite Hc. simpl. rewrite <- app_assoc. simpl.
    rewrite Hsub. simpl.
    repeat split.
    - rewrite <- !app_assoc. reflexivity.
    - set_solver. }
  destruct Hrun as (Hres & Hlog & Hin).
  repeat split; try assumption.
  rewrite (onStatus_function 0 data cb (snd r)); [reflexivity | |].
  - rewrite Hd. exact Hlt.
  - rewrite Hd. apply read_set_watcherCb.
Qed.

Lemma watch_slot0_scenario_witness :
  let w := ready_world all_characteristics in
  let c0 := "6765ed1f4de149e14771a14380c90006"%string in
  let r := watch env_ok 0 1 0x005F (JNum 1) (JFun 1%nat) w in
  fst r = Resolved tt
  /\ log (snd r)
     = log w ++ [BleUnsubscribe c0;
                 MasterCommand (id (dongle w)) OP_WATCH [0; 1; 0x00; 0x5F; 1];
                 BleSubscribe c0]
  /\ c0 ∈ subscribed (snd r)
  /\ log (onStatus 0 [42] (snd r)) = log (snd r) ++ [WatcherCall 1%nat [42] 0].
Proof.
  apply (watch_slot0_scenario env_ok 1%nat
           "6765ed1f4de149e14771a14380c90006"%string [42] []
           (ready_world all_characteristics)).
  - vm_compute. reflexivity.
  - vm_compute. reflexivity.
  - reflexivity.
  - reflexivity.
  - reflexivity.
Defined.

(** C8. For every slot [s] with [0 <= s < numStatus] whose characteristic
    [c] was found, [watch(s, ...)] followed by [unwatch(s)], when the
    unsubscribe made by [unwatch] succeeds: slot [s] holds no callback (the
    table holds null there and a notification on [s] calls nothing), [c] is
    not subscribed, and [unwatch] has issued the unsubscribe of [c] and
    then one UNWATCH command to the dongle whose payload is the byte [s]. *)
Theorem watch_then_unwatch env s dev address length cb c w :
  0 <= s < numStatus (dongle w) ->
  numStatus (dongle w) <= 256 ->
  statusChar (dongle w) !! s = Some c ->
  let w1 := snd (watch env s dev address length cb w) in
  on_unsubscribe env (log w1) c = BleOk ->
  let r := unwatch env s w1 in
  read_watcherCb (dongle (snd r)) s = JNull
  /\ (forall data, onStatus s data (snd r) = snd r)
  /\ (c ∉ subscribed (snd r))
  /\ log (snd r)
     = log w1 ++ [BleUnsubscribe c; MasterCommand (id (dongle w)) OP_UNWATCH [s]].
Proof.
  intros [H0 Hlt] H256 Hc w1 Hun r.
  assert (Hd1 : dongle w1
                = set_watcherCb s (snd (default_length length cb)) (dongle w)).
  { subst w1. apply watch_dongle. exact Hlt. }
  assert (Hlt1 : s < numStatus (dongle w1)) by (rewrite Hd1; exact Hlt).
  assert (Hd : dongle (snd r) = set_watcherCb s JNull (dongle w1)).
  { subst r. apply unwatch_dongle. exact Hlt1. }
  assert (Hnull : read_watcherCb (dongle (snd r)) s = JNull).
  { rewrite Hd. apply read_set_watcherCb. }
  split; [exact Hnull|].
  split; [intros data; apply onStatus_null; exact Hnull|].
  subst r. unfold unwatch.
  apply Z.ltb_lt in Hlt1. rewrite Hlt1.
  unfold then_, unsubscribe, command. simpl.
  rewrite Hd1. simpl. rewrite Hc. simpl. rewrite Hun. simpl.
  split.
  - destruct (on_command env _ _ _ _); simpl;
      intros [_ Hn]%elem_of_difference; apply Hn, elem_of_singleton;
      reflexivity.
  - rewrite (Buffer_from_byte s) by lia.
    destruct (on_command env _ _ _ _); simpl;
      rewrite <- app_assoc; reflexivity.
Qed.

Lemma watch_then_unwatch_witness :
  let w := ready_world all_characteristics in
  let c := "6765ed1f4de149e14771a14380c90009"%string in
  let w1 := snd (watch env_ok 3 1 0x002E (JNum 1) (JFun 1%nat) w) in
  let r := unwatch env_ok 3 w1 in
  read_watcherCb (dongle (snd r)) 3 = JNull
  /\ (forall data, onStatus 3 data (snd r) = snd r)
  /\ (c ∉ subscribed (snd r))
  /\ log (snd r)
     = log w1 ++ [BleUnsubscribe c; MasterCommand (id (dongle w)) OP_UNWATCH [3]].
Proof.
  apply (watch_then_unwatch env_ok 3 1 0x002E (JNum 1) (JFun 1%nat)
           "6765ed1f4de149e14771a14380c90009"%string
           (ready_world all_characteristics)).
  - vm_compute. split; [discriminate | reflexivity].
  - vm_compute. discriminate.
  - vm_compute. reflexivity.
  - reflexivity.
Defined.

(** C8 fails as stated, in two ways. On a dongle connected to a peripheral
    that lacks the status characteristic of slot 5, with a BLE stack and a
    dongle that answer everything without error, [watch(5, ...)] and then
    [unwatch(5)] both stay pending and no UNWATCH command is sent: the log
    holds the two 'Unknown characterstic' messages and nothing else. And
    on slot 3, when the unsubscribe made by [unwatch] is refused after a
    [watch] that went through, [unwatch] is rejected, the callback is
    null, the characteristic is still subscribed and no UNWATCH command is
    sent. *)
Lemma watch_then_unwatch_not_always :
  let w := ready_world characteristics_without_slot_5 in
  let r1 := watch env_ok 5 1 0x002E (JNum 1) (JFun 1%nat) w in
  let r := unwatch env_ok 5 (snd r1) in
  let v := ready_world all_characteristics in
  let q1 := watch env_unsubscribe_fails_later 3 1 0x002E (JNum 1) (JFun 1%nat) v in
  let q := unwatch env_unsubscribe_fails_later 3 (snd q1) in
  5 < numStatus (dongle w)
  /\ fst r1 = Pending
  /\ fst r = Pending
  /\ log (snd r)
     = [ConsoleError "Unknown characterstic";
        ConsoleError "Unknown characterstic"]
  /\ fst q1 = Resolved tt
  /\ fst q = Rejected (ErrorMsg "Failed to unsubscribe characteristic")
  /\ read_watcherCb (dongle (snd q)) 3 = JNull
  /\ bool_decide ("6765ed1f4de149e14771a14380c90009"%string ∈ subscribed (snd q))
     = true
  /\ log (snd q)
     = [BleUnsubscribe "6765ed1f4de149e14771a14380c90009";
        MasterCommand 254 OP_WATCH [3; 1; 0x00; 0x2E; 1];
        BleSubscribe "6765ed1f4de149e14771a14380c90009";
        BleUnsubscribe "6765ed1f4de149e14771a14380c90009"].
Proof.
  vm_compute. repeat split; reflexivity.
Qed.

(** ** The superwatch slot *)

Lemma superwatch_commandArray_length dev addresses :
  length (Buffer_from (superwatch_commandArray dev addresses))
  = (2 + 2 * length addresses)%nat.
Proof.
  unfold Buffer_from, superwatch_commandArray.
  rewrite length_map, length_app. simpl. f_equal. f_equal.
  induction addresses as [|a rest IH]; simpl; [reflexivity|].
  rewrite IH. lia.
Qed.

(** [superwatch] stores its callback at index [SLOT_SUPERWATCH] of the one
    callback table, whatever the BLE stack answers. *)
Lemma superwatch_claims_slot env dev addresses cb w :
  read_watcherCb (dongle (snd (superwatch env dev addresses cb w))) SLOT_SUPERWATCH
  = cb.
Proof. rewrite superwatch_dongle. apply read_set_watcherCb. Qed.

(** Every other index of the table is left as it was. *)
Lemma superwatch_other_slots env dev addresses cb s w :
  s <> SLOT_SUPERWATCH ->
  read_watcherCb (dongle (snd (superwatch env dev addresses cb w))) s
  = read_watcherCb (dongle w) s.
Proof.
  intros Hne. rewrite superwatch_dongle.
  apply read_set_watcherCb_ne. congruence.
Qed.

(** When the table index of the superwatch is below [numStatus], a
    notification on that ordinary slot calls the superwatch callback. *)
Lemma superwatch_called_by_onStatus env dev addresses f data w :
  SLOT_SUPERWATCH < numStatus (dongle w) ->
  let w' := snd (superwatch env dev addresses (JFun f) w) in
  onStatus SLOT_SUPERWATCH data w'
  = emit_event (WatcherCall f data SLOT_SUPERWATCH) w'.
Proof.
  intros Hlt w'. apply onStatus_function.
  - subst w'. rewrite superwatch_dongle. exact Hlt.
  - subst w'. apply superwatch_claims_slot.
Qed.

(** C3, evaluated on the code. [SLOT_SUPERWATCH] is 0x10 = 16 and the
    dongle has 20 ordinary slots, so the superwatch shares the table entry
    of ordinary slot 16: after [watch(16, ..., cb1)], a call of
    [superwatch(1, [0x0064], cb2)] replaces the callback of slot 16 by
    [cb2], and a notification on ordinary slot 16 then calls [cb2], the
    superwatch callback, and not [cb1]. *)
Theorem superwatch_shares_slot_16 :
  let w := ready_world all_characteristics in
  let w1 := snd (watch env_ok 16 1 0x002E (JNum 1) (JFun 1%nat) w) in
  let w2 := snd (superwatch env_ok 1 [0x0064] (JFun 2%nat) w1) in
  SLOT_SUPERWATCH = 16
  /\ 16 < numStatus (dongle w)
  /\ read_watcherCb (dongle w1) 16 = JFun 1%nat
  /\ read_watcherCb (dongle w2) 16 = JFun 2%nat
  /\ log (onStatus 16 [9] w2) = log w2 ++ [WatcherCall 2%nat [9] 16].
Proof.
  intros w w1 w2.
  assert (Hlt : 16 < numStatus (dongle w)) by (vm_compute; reflexivity).
  assert (Hd1 : dongle w1 = set_watcherCb 16 (JFun 1%nat) (dongle w)).
  { subst w1. rewrite watch_dongle by exact Hlt. reflexivity. }
  split; [reflexivity|]. split; [exact Hlt|]. split.
  - rewrite Hd1. apply read_set_watcherCb.
  - split.
    + subst w2. apply (superwatch_claims_slot env_ok 1 [0x0064] (JFun 2%nat) w1).
    + subst w2.
      pose proof (superwatch_called_by_onStatus env_ok 1 [0x0064] 2%nat [9] w1)
        as Hcall.
      change SLOT_SUPERWATCH with 16 in Hcall.
      rewrite Hcall; [reflexivity|].
      rewrite Hd1. exact Hlt.
Qed.

(** C2, as the code has it. [superwatch] does not look at the length of
    the address list. For every list, when the superwatch characteristic
    [c] was found and its unsubscribe succeeds, the call logs the command
    array, unsubscribes [c], issues one SUPERWATCH command to the dongle
    whose payload is [0x10, unit, hi, lo, ...] (two bytes per address) and
    subscribes [c]; the callback is stored at index 0x10; and the promise
    is resolved, or left pending, or rejected because the subscribe failed:
    it is never rejected for the number of addresses. *)
Theorem superwatch_any_length env dev addresses cb c w :
  superwatchChar (dongle w) = Some c ->
  on_unsubscribe env
    (log w ++ [ConsoleLog (superwatch_commandArray dev addresses)]) c = BleOk ->
  let r := superwatch env dev addresses cb w in
  let payload := Buffer_from (superwatch_commandArray dev addresses) in
  log (snd r)
  = log w ++ [ConsoleLog (superwatch_commandArray dev addresses);
              BleUnsubscribe c;
              MasterCommand (id (dongle w)) OP_SUPERWATCH payload;
              BleSubscribe c]
  /\ length payload = (2 + 2 * length addresses)%nat
  /\ read_watcherCb (dongle (snd r)) SLOT_SUPERWATCH = cb
  /\ (fst r = Resolved tt
      \/ fst r = Rejected (ErrorMsg "Failed to subscribe to characteristic")
      \/ fst r = Pending).
Proof.
  intros Hc Hun r payload.
  split; [|split; [apply superwatch_commandArray_length|
                   split; [apply superwatch_claims_slot|]]].
  - subst r payload. unfold superwatch, then_, unsubscribe, command, subscribe.
    simpl. rewrite Hc, Hun. simpl.
    destruct (on_command env _ _ _ _); simpl; rewrite Hc;
      destruct (on_subscribe env _ _); simpl;
      rewrite <- !app_assoc; reflexivity.
  - subst r. unfold superwatch, then_, unsubscribe, command, subscribe.
    simpl. rewrite Hc, Hun. simpl.
    destruct (on_command env _ _ _ _); simpl; rewrite Hc;
      destruct (on_subscribe env _ _); simpl; auto.
Qed.

Lemma superwatch_any_length_witness :
  let w := ready_world all_characteristics in
  let addresses := map Z.of_nat (seq 5 26) in
  let r := superwatch env_ok 1 addresses (JFun 1%nat) w in
  let payload := Buffer_from (superwatch_commandArray 1 addresses) in
  log (snd r)
  = log w ++ [ConsoleLog (superwatch_commandArray 1 addresses);
              BleUnsubscribe uuidSuperwatch;
              MasterCommand (id (dongle w)) OP_SUPERWATCH payload;
              BleSubscribe uuidSuperwatch]
  /\ length payload = (2 + 2 * length addresses)%nat
  /\ read_watcherCb (dongle (snd r)) SLOT_SUPERWATCH = JFun 1%nat
  /\ (fst r = Resolved tt
      \/ fst r = Rejected (ErrorMsg "Failed to subscribe to characteristic")
      \/ fst r = Pending).
Proof.
  apply (superwatch_any_length env_ok 1 (map Z.of_nat (seq 5 26)) (JFun 1%nat)
           uuidSuperwatch (ready_world all_characteristics)).
  - vm_compute. reflexivity.
  - reflexivity.
Defined.

(** C2 fails as stated: with 26 addresses, one more than the maximum, the
    promise of [superwatch] is resolved, and the unsubscribe, a SUPERWATCH
    command of 54 bytes and the subscribe have all been issued. *)
Lemma superwatch_26_addresses_sent :
  let addresses := map Z.of_nat (seq 5 26) in
  let r := superwatch env_ok 1 addresses (JFun 1%nat)
             (ready_world all_characteristics) in
  (length addresses > superwatch_max_addresses)%nat
  /\ fst r = Resolved tt
  /\ log (snd r)
     = [ConsoleLog (superwatch_commandArray 1 addresses);
        BleUnsubscribe uuidSuperwatch;
        MasterCommand 254 OP_SUPERWATCH
          (Buffer_from (superwatch_commandArray 1 addresses));
        BleSubscribe uuidSuperwatch]
  /\ length (Buffer_from (superwatch_commandArray 1 addresses)) = 54%nat.
Proof.
  split; [vm_compute; lia|].
  vm_compute. repeat split; reflexivity.
Qed.

(** ** The UART write path *)


(** A failed write rejects the promise of [writeCharacteristic] with the
    error of the BLE stack. *)
Lemma writeCharacteristic_failure env c value e w :
  isConnected (dongle w) = true ->
  on_write env (log w) c value = BleErr e ->
  fst (writeCharacteristic env (Some c) value w) = Rejected e.
Proof.
  intros Hconn Herr. unfold writeCharacteristic. rewrite Hconn, Herr.
  reflexivity.
Qed.





(** The internal promise chain of [write] is never rejected: the handler
    given to [catch] takes every rejection. *)
Lemma write_chain_not_rejected env data w e :
  fst (write_chain env data w) <> Rejected e.
Proof.
  unfold write_chain.
  destruct (txCharacteristic (dongle w)); simpl; [|discriminate].
  destruct (write_loop env (length data) (Some c) data 0 [] w) as [writes w'].
  simpl. destruct (Promise_all writes); simpl; discriminate.
Qed.


Example chunks_45 : map length (chunks (bytes_upto 45)) = [20; 20; 5]%nat.
Proof. reflexivity. Qed.



(** C6, as the code has it. Whatever happens to the chunk writes, [write]
    hands [undefined] back to its caller and its internal promise chain is
    never rejected; this although, on a connected dongle, a write that the
    BLE stack fails with [e] does reject the promise of
    [writeCharacteristic] with [e]: the error reaches [write] and is
    dropped there. *)
Theorem write_discards_chunk_failure env data w :
  fst (write env data w) = JUndefined
  /\ (forall e, fst (write_chain env data w) <> Rejected e)
  /\ (forall c chunk e,
        isConnected (dongle w) = true ->
        on_write env (log w) c chunk = BleErr e ->
        fst (writeCharacteristic env (Some c) chunk w) = Rejected e).
Proof.
  split; [reflexivity|]. split.
  - intros e. apply write_chain_not_rejected.
  - intros c chunk e. apply writeCharacteristic_failure.
Qed.

(** C6 fails as stated: when the write of the second of three chunks fails
    with [Transport 5], the promise of that chunk is rejected with it, the
    third chunk is still written, the internal chain of [write] ends
    resolved and the caller gets [undefined]. *)
Lemma write_hides_failed_chunk :
  let data := bytes_upto 45 in
  let w := ready_world all_characteristics in
  fst (write_loop env_second_write_fails 45 (Some uuidTx) data 0 [] w)
  = [Resolved tt; Rejected (Transport 5); Resolved tt]
  /\ map is_BleWrite (log (snd (write env_second_write_fails data w)))
     = [true; true; true]
  /\ fst (write_chain env_second_write_fails data w) = Resolved tt
  /\ fst (write env_second_write_fails data w) = JUndefined.
Proof.
  vm_compute. repeat split; reflexivity.
Qed.

(** ** The command queue *)

Lemma sendNextCommand_dongle env w : dongle (sendNextCommand env w) = dongle w.
Proof.
  unfold sendNextCommand.
  destruct (commandQueue (dongle w)) as [|c rest]; [reflexivity|].
  rewrite writeCharacteristic_dongle. reflexivity.
Qed.

(** [sendNextCommand] calls no request callback. *)
Lemma sendNextCommand_log env w :
  exists evs,
    log (sendNextCommand env w) = log w ++ evs
    /\ filter (fun e => is_CommandCallback e = true) evs = [].
Proof.
  unfold sendNextCommand, writeCharacteristic.
  destruct (commandQueue (dongle w)) as [|c rest].
  - exists []. rewrite app_nil_r. split; reflexivity.
  - simpl. destruct (isConnected (dongle w)); simpl.
    + destruct (commandChar (dongle w)) as [ch|]; simpl.
      * exists [Emit "sendCommand" (command_bytes c);
                BleWrite ch (command_bytes c)].
        split; [|reflexivity].
        destruct (on_write env _ _ _); simpl; rewrite <- app_assoc; reflexivity.
      * exists [Emit "sendCommand" (command_bytes c)]. split; reflexivity.
    + exists [Emit "sendCommand" (command_bytes c)]. split; reflexivity.
Qed.

(** [__command] arms no timer: the entry it pushes has a null
    [responseTimer], and the entries already queued keep theirs. *)
Lemma __command_no_timer env cmd cb t w :
  no_timer_armed (dongle w) ->
  no_timer_armed (dongle (__command env cmd cb t w)).
Proof.
  intros Hq. unfold __command.
  assert (Hnew : no_timer_armed
            (set_queue
               (commandQueue (dongle w)
                ++ [{| command_bytes := cmd;
                       sequence := commandSequence (dongle w);
                       responseTimer := JNull;
                       timeout := timeout_or_default t (dongle w);
                       callback := cb |}])
               (js_and (commandSequence (dongle w) + 1) 0xFF) (dongle w))).
  { unfold no_timer_armed in *. simpl. apply Forall_app. split; [exact Hq|].
    constructor; [reflexivity | constructor]. }
  destruct (bool_decide _); [rewrite sendNextCommand_dongle|]; exact Hnew.
Qed.

(** With no timer armed, [handleResponseTimeout] does nothing, whether it
    is called with a timer or without an argument. *)
Lemma handleResponseTimeout_no_timer env timer w :
  no_timer_armed (dongle w) ->
  timer <> JNull ->
  handleResponseTimeout env timer w = w.
Proof.
  intros Hq Hne. unfold handleResponseTimeout.
  destruct (commandQueue (dongle w)) as [|c rest] eqn:Hqueue; [reflexivity|].
  unfold no_timer_armed in Hq. rewrite Hqueue in Hq.
  apply Forall_cons in Hq as [Hc _].
  unfold strict_eq. rewrite Hc.
  rewrite bool_decide_eq_false_2 by congruence. reflexivity.
Qed.

(** What [handleResponseTimeout] does when it is called with the timer of
    the request at the front: the callback is called with the 'Timeout'
    error, the request is removed, and [sendNextCommand] runs on the rest. *)
Lemma handleResponseTimeout_front env timer c rest w :
  commandQueue (dongle w) = c :: rest ->
  responseTimer c = timer ->
  handleResponseTimeout env timer w
  = sendNextCommand env
      (with_dongle
         (set_queue rest (commandSequence (dongle w)) (dongle w))
         (emit_event (CommandCallback (callback c) (ErrorMsg "Timeout")) w)).
Proof.
  intros Hq Ht. unfold handleResponseTimeout. rewrite Hq.
  unfold strict_eq. rewrite bool_decide_eq_true_2 by exact Ht. reflexivity.
Qed.

(** C1, evaluated on the code. Two requests with a timeout of 500 ms are
    queued on a ready dongle and nothing is ever answered. The first is
    announced by 'sendCommand'; both stay in the queue with a null
    [responseTimer], because the function that would call [setTimeout] is
    handed to [writeCharacteristic] as a third argument and never called.
    No callback has been called, and [handleResponseTimeout], called
    without an argument (as a timer would call it) or with any timer,
    leaves everything as it is: the first request is not failed with
    'Timeout', is not removed, and the second is never sent. *)
Theorem queued_request_never_times_out :
  let w := ready_world all_characteristics in
  let w1 := __command env_silent [1; 2; 3] 7%nat (Some 500) w in
  let w2 := __command env_silent [4; 5; 6] 8%nat (Some 500) w1 in
  commandQueue (dongle w2)
  = [ {| command_bytes := [1; 2; 3]; sequence := 0; responseTimer := JNull;
         timeout := 500; callback := 7%nat |};
      {| command_bytes := [4; 5; 6]; sequence := 1; responseTimer := JNull;
         timeout := 500; callback := 8%nat |} ]
  /\ log w2 = [Emit "sendCommand" [1; 2; 3]]
  /\ handleResponseTimeout env_silent JUndefined w2 = w2
  /\ (forall t, handleResponseTimeout env_silent (JTimer t) w2 = w2).
Proof.
  intros w w1 w2.
  assert (Hq : no_timer_armed (dongle w2)).
  { subst w2 w1. apply __command_no_timer, __command_no_timer. constructor. }
  split; [vm_compute; reflexivity|].
  split; [vm_compute; reflexivity|].
  split.
  - apply handleResponseTimeout_no_timer; [exact Hq | discriminate].
  - intros t. apply handleResponseTimeout_no_timer; [exact Hq | discriminate].
Qed.

(** C4, as the code has it. For every queue of pending requests and
    whatever the BLE stack answers, [disconnect] leaves [commandQueue] and
    [commandSequence] as they were and calls no request callback. When the
    dongle has a peripheral and the BLE disconnect completes without an
    error the promise is resolved; and when it is resolved,
    [rxCharacteristic], [txCharacteristic], [deviceType], [peripheral] and
    [controllerService] are null, [connected] is false, and what has been
    added to the log is the BLE disconnect followed by the 'disconnected'
    event. *)
Theorem disconnect_keeps_queue env w :
  let r := disconnect env w in
  commandQueue (dongle (snd r)) = commandQueue (dongle w)
  /\ commandSequence (dongle (snd r)) = commandSequence (dongle w)
  /\ (exists evs,
        log (snd r) = log w ++ evs
        /\ filter (fun e => is_CommandCallback e = true) evs = [])
  /\ (fst r = Resolved tt ->
      isConnected (dongle (snd r)) = false
      /\ txCharacteristic (dongle (snd r)) = None
      /\ rxCharacteristic (dongle (snd r)) = None
      /\ deviceType (dongle (snd r)) = None
      /\ peripheral (dongle (snd r)) = None
      /\ controllerService (dongle (snd r)) = None
      /\ connected (dongle (snd r)) = false
      /\ log (snd r) = log w ++ [BleDisconnect; Emit "disconnected" []])
  /\ (peripheral (dongle w) <> None ->
      on_disconnect env (log w) = BleOk ->
      fst r = Resolved tt).
Proof.
  unfold disconnect.
  destruct (peripheral (dongle w)) as [st|] eqn:Hp; simpl.
  - destruct (on_disconnect env (log w)); simpl.
    + repeat split; try reflexivity.
      * exists [BleDisconnect; Emit "disconnected" []].
        split; [rewrite <- app_assoc|]; reflexivity.
      * rewrite <- app_assoc. reflexivity.
    + repeat split; try discriminate.
      exists [BleDisconnect]. split; reflexivity.
    + repeat split; try discriminate.
      exists [BleDisconnect]. split; reflexivity.
  - repeat split; try discriminate.
    + exists []. rewrite app_nil_r. split; reflexivity.
    + intros Hnone. contradiction.
Qed.

(** C4 fails as stated: with two requests queued, [disconnect] succeeds,
    both requests are still in the queue, in the same order, and the log
    holds no call of a request callback. *)
Lemma disconnect_leaves_requests_queued :
  let w := ready_world all_characteristics in
  let w1 := __command env_ok [1; 2; 3] 7%nat (Some 500) w in
  let w2 := __command env_ok [4; 5; 6] 8%nat (Some 500) w1 in
  let r := disconnect env_ok w2 in
  fst r = Resolved tt
  /\ map callback (commandQueue (dongle w2)) = [7%nat; 8%nat]
  /\ map callback (commandQueue (dongle (snd r))) = [7%nat; 8%nat]
  /\ log (snd r)
     = [Emit "sendCommand" [1; 2; 3]; BleDisconnect; Emit "disconnected" []].
Proof.
  vm_compute. repeat split; reflexivity.
Qed.

(** * Further properties of the driver *)

Set Warnings "-clear-no-such-hyp".

(** ** Edge cases of the slot registry *)

(** X1. For every slot index that is not below [numStatus], [unwatch] is
    rejected with 'unwatch requested for invalid slot number' and leaves
    the world as it was: the callback table is not touched and nothing is
    issued. *)
Theorem unwatch_invalid_slot env slot w :
  numStatus (dongle w) <= slot ->
  unwatch env slot w
  = (Rejected (ErrorText "unwatch requested for invalid slot number"), w).
Proof.
  intros Hge. unfold unwatch.
  destruct (Z.ltb_spec slot (numStatus (dongle w))) as [Hlt|_]; [lia|].
  reflexivity.
Qed.

Lemma unwatch_invalid_slot_witness :
  unwatch env_ok 0xFF (ready_world all_characteristics)
  = (Rejected (ErrorText "unwatch requested for invalid slot number"),
     ready_world all_characteristics).
Proof.
  apply (unwatch_invalid_slot env_ok 0xFF (ready_world all_characteristics)).
  vm_compute. discriminate.
Defined.

(** X2. A notification is dropped without a trace when its slot is not
    below [numStatus], even if the table holds a function at that index,
    and when the table holds anything but a function for the slot. *)
Theorem onStatus_dropped slot data w :
  numStatus (dongle w) <= slot
  \/ (forall f, read_watcherCb (dongle w) slot <> JFun f) ->
  onStatus slot data w = w.
Proof.
  intros [Hge|Hcb]; unfold onStatus.
  - destruct (Z.ltb_spec slot (numStatus (dongle w))) as [Hlt|_]; [lia|].
    reflexivity.
  - destruct (slot <? numStatus (dongle w)); [|reflexivity].
    destruct (read_watcherCb (dongle w) slot) eqn:Hr; try reflexivity.
    exfalso. apply (Hcb f). reflexivity.
Qed.

Lemma onStatus_dropped_witness :
  let w := with_dongle
             (set_watcherCb 20 (JFun 5%nat)
                (dongle (ready_world all_characteristics)))
             (ready_world all_characteristics) in
  read_watcherCb (dongle w) 20 = JFun 5%nat /\ onStatus 20 [1] w = w.
Proof.
  split; [vm_compute; reflexivity|].
  apply (onStatus_dropped 20 [1]). left. vm_compute. discriminate.
Defined.

(** [watch] on a slot that is not below [numStatus] hands the world back. *)
Lemma watch_out_of_range env s dev address length cb w :
  numStatus (dongle w) <= s ->
  snd (watch env s dev address length cb w) = w.
Proof.
  intros Hge. unfold watch.
  destruct (default_length length cb) as [len' cb'].
  destruct (Z.ltb_spec s (numStatus (dongle w))) as [Hlt|_]; [lia|].
  reflexivity.
Qed.

(** [onStatus] calls nothing when the table holds no function. *)
Lemma onStatus_not_function slot data w :
  (forall f, read_watcherCb (dongle w) slot <> JFun f) ->
  onStatus slot data w = w.
Proof.
  intros Hcb. unfold onStatus.
  destruct (slot <? numStatus (dongle w)); [|reflexivity].
  destruct (read_watcherCb (dongle w) slot) eqn:Hr; try reflexivity.
  exfalso. apply (Hcb f). reflexivity.
Qed.

(** What [watch] does to the subscriptions is confined to the
    characteristic of its slot. *)
Lemma watch_subscribed_frame env s dev address length cb c' w :
  statusChar (dongle w) !! s <> Some c' ->
  c' ∈ subscribed (snd (watch env s dev address length cb w))
  <-> c' ∈ subscribed w.
Proof.
  intros Hc. unfold watch.
  destruct (default_length length cb) as [len' cb'].
  destruct (s <? numStatus (dongle w)); [|reflexivity].
  unfold then_, unsubscribe, command, subscribe. simpl.
  destruct (statusChar (dongle w) !! s) as [c|] eqn:Hs; simpl; [|reflexivity].
  assert (Hne : c' <> c) by congruence.
  destruct (on_unsubscribe env (log w) c); simpl;
    [|reflexivity|reflexivity].
  destruct (on_command env _ _ _ _) as [err resp|]; simpl.
  - destruct (command_onComplete OP_WATCH err resp); simpl.
    + rewrite Hs.
      destruct (on_subscribe env _ c); simpl; set_solver.
    + set_solver.
    + set_solver.
  - set_solver.
Qed.

(** X3. [watch] on slot [s] does not interfere with another slot: the
    callback stored for any other index, the characteristics, and the
    subscription of every characteristic other than that of [s] are as
    before, whether [s] is valid or not and whatever the BLE stack and the
    dongle answer. *)
Theorem watch_frame env s dev address length cb s' c' w :
  s' <> s ->
  statusChar (dongle w) !! s <> Some c' ->
  let w1 := snd (watch env s dev address length cb w) in
  read_watcherCb (dongle w1) s' = read_watcherCb (dongle w) s'
  /\ statusChar (dongle w1) = statusChar (dongle w)
  /\ (c' ∈ subscribed w1 <-> c' ∈ subscribed w).
Proof.
  intros Hne Hc w1.
  split; [|split].
  - subst w1. destruct (Z.lt_ge_cases s (numStatus (dongle w))) as [Hlt|Hge].
    + rewrite watch_dongle by exact Hlt.
      apply read_set_watcherCb_ne. congruence.
    + rewrite watch_out_of_range by exact Hge. reflexivity.
  - subst w1. destruct (Z.lt_ge_cases s (numStatus (dongle w))) as [Hlt|Hge].
    + rewrite watch_dongle by exact Hlt. reflexivity.
    + rewrite watch_out_of_range by exact Hge. reflexivity.
  - subst w1. apply watch_subscribed_frame. exact Hc.
Qed.

Lemma watch_frame_witness :
  let w := snd (watch env_ok 2 1 0x0064 (JNum 2) (JFun 1%nat)
                  (ready_world all_characteristics)) in
  let c2 := "6765ed1f4de149e14771a14380c90008"%string in
  let w1 := snd (watch env_ok 3 1 0x002E (JNum 1) (JFun 2%nat) w) in
  read_watcherCb (dongle w) 2 = JFun 1%nat
  /\ c2 ∈ subscribed w
  /\ read_watcherCb (dongle w1) 2 = read_watcherCb (dongle w) 2
  /\ statusChar (dongle w1) = statusChar (dongle w)
  /\ (c2 ∈ subscribed w1 <-> c2 ∈ subscribed w).
Proof.
  split; [vm_compute; reflexivity|].
  split; [vm_compute; set_solver|].
  apply (watch_frame env_ok 3 1 0x002E (JNum 1) (JFun 2%nat) 2
           "6765ed1f4de149e14771a14380c90008"%string).
  - discriminate.
  - vm_compute. discriminate.
Defined.

(** X4. When the dongle does not accept the WATCH command (an error, an
    exception code, or a status other than 0), [watch] is rejected with
    that reason and does not subscribe: the characteristic of the slot is
    left unsubscribed. The callback stored before the command was sent
    stays in the table. *)
Theorem watch_command_rejected env s dev address len cb c err resp e w :
  s < numStatus (dongle w) ->
  statusChar (dongle w) !! s = Some c ->
  on_unsubscribe env (log w) c = BleOk ->
  let payload :=
    Buffer_from [s; dev; js_shr address 8; js_and address 0xFF; len] in
  on_command env (log w ++ [BleUnsubscribe c]) (id (dongle w)) OP_WATCH payload
  = CmdDone err resp ->
  command_onComplete OP_WATCH err resp = Rejected e ->
  let r := watch env s dev address (JNum len) cb w in
  fst r = Rejected e
  /\ log (snd r)
     = log w ++ [BleUnsubscribe c; MasterCommand (id (dongle w)) OP_WATCH payload]
  /\ (c ∉ subscribed (snd r))
  /\ read_watcherCb (dongle (snd r)) s = cb.
Proof.
  intros Hlt Hc Hun payload Hcmd Hrej r.
  assert (Hd : dongle (snd r) = set_watcherCb s cb (dongle w)).
  { subst r. rewrite watch_dongle by exact Hlt. reflexivity. }
  split; [|split; [|split]].
  - subst r payload. unfold watch. simpl default_length. cbv iota beta.
    apply Z.ltb_lt in Hlt. rewrite Hlt.
    unfold then_, unsubscribe, command. simpl.
    rewrite Hc, Hun. simpl. simpl in Hcmd. rewrite Hcmd. simpl.
    rewrite Hrej. reflexivity.
  - subst r payload. unfold watch. simpl default_length. cbv iota beta.
    apply Z.ltb_lt in Hlt. rewrite Hlt.
    unfold then_, unsubscribe, command. simpl.
    rewrite Hc, Hun. simpl. simpl in Hcmd. rewrite Hcmd. simpl.
    rewrite Hrej. simpl. rewrite <- app_assoc. reflexivity.
  - subst r payload. unfold watch. simpl default_length. cbv iota beta.
    apply Z.ltb_lt in Hlt. rewrite Hlt.
    unfold then_, unsubscribe, command. simpl.
    rewrite Hc, Hun. simpl. simpl in Hcmd. rewrite Hcmd. simpl.
    rewrite Hrej. simpl.
    intros [_ Hn]%elem_of_difference. apply Hn, elem_of_singleton. reflexivity.
  - rewrite Hd. apply read_set_watcherCb.
Qed.

Lemma watch_command_rejected_witness :
  let w := ready_world all_characteristics in
  let c := "6765ed1f4de149e14771a14380c90006"%string in
  let payload := Buffer_from [0; 1; js_shr 0x005F 8; js_and 0x005F 0xFF; 1] in
  let r := watch env_exception 0 1 0x005F (JNum 1) (JFun 1%nat) w in
  fst r = Rejected (ErrException 2)
  /\ log (snd r)
     = log w ++ [BleUnsubscribe c; MasterCommand (id (dongle w)) OP_WATCH payload]
  /\ (c ∉ subscribed (snd r))
  /\ read_watcherCb (dongle (snd r)) 0 = JFun 1%nat.
Proof.
  apply (watch_command_rejected env_exception 0 1 0x005F 1 (JFun 1%nat)
           "6765ed1f4de149e14771a14380c90006"%string
           None (Some (Response 2 None)) (ErrException 2)
           (ready_world all_characteristics)).
  - vm_compute. reflexivity.
  - vm_compute. reflexivity.
  - reflexivity.
  - reflexivity.
  - reflexivity.
Defined.

(** X5. [watch] on a valid slot whose status characteristic was not found
    never settles: the unsubscribe it starts with is neither resolved nor
    rejected, so nothing is sent to the dongle and nothing is subscribed;
    'Unknown characterstic' is logged, and the callback is in the table all
    the same. *)
Theorem watch_missing_characteristic env s dev address len cb w :
  s < numStatus (dongle w) ->
  statusChar (dongle w) !! s = None ->
  let r := watch env s dev address (JNum len) cb w in
  fst r = Pending
  /\ log (snd r) = log w ++ [ConsoleError "Unknown characterstic"]
  /\ subscribed (snd r) = subscribed w
  /\ read_watcherCb (dongle (snd r)) s = cb.
Proof.
  intros Hlt Hc r.
  assert (Hd : dongle (snd r) = set_watcherCb s cb (dongle w)).
  { subst r. rewrite watch_dongle by exact Hlt. reflexivity. }
  split; [|split; [|split]].
  - subst r. unfold watch. simpl default_length. cbv iota beta.
    apply Z.ltb_lt in Hlt. rewrite Hlt.
    unfold then_, unsubscribe. simpl. rewrite Hc. reflexivity.
  - subst r. unfold watch. simpl default_length. cbv iota beta.
    apply Z.ltb_lt in Hlt. rewrite Hlt.
    unfold then_, unsubscribe. simpl. rewrite Hc. reflexivity.
  - subst r. unfold watch. simpl default_length. cbv iota beta.
    apply Z.ltb_lt in Hlt. rewrite Hlt.
    unfold then_, unsubscribe. simpl. rewrite Hc. reflexivity.
  - rewrite Hd. apply read_set_watcherCb.
Qed.

Lemma watch_missing_characteristic_witness :
  let w := ready_world [uuidTx; uuidRx] in
  let r := watch env_ok 0 1 0x005F (JNum 1) (JFun 1%nat) w in
  fst r = Pending
  /\ log (snd r) = log w ++ [ConsoleError "Unknown characterstic"]
  /\ subscribed (snd r) = subscribed w
  /\ read_watcherCb (dongle (snd r)) 0 = JFun 1%nat.
Proof.
  apply (watch_missing_characteristic env_ok 0 1 0x005F 1 (JFun 1%nat)
           (ready_world [uuidTx; uuidRx])).
  - vm_compute. reflexivity.
  - vm_compute. reflexivity.
Defined.

(** X6. When the unsubscribe made by [unwatch] fails, [unwatch] is rejected
    with 'Failed to unsubscribe characteristic' and sends no UNWATCH
    command; the subscriptions are as before, but the callback of the slot
    has already been cleared. *)
Theorem unwatch_unsubscribe_fails env s c e w :
  s < numStatus (dongle w) ->
  statusChar (dongle w) !! s = Some c ->
  on_unsubscribe env (log w) c = BleErr e ->
  let r := unwatch env s w in
  fst r = Rejected (ErrorMsg "Failed to unsubscribe characteristic")
  /\ log (snd r) = log w ++ [BleUnsubscribe c]
  /\ subscribed (snd r) = subscribed w
  /\ read_watcherCb (dongle (snd r)) s = JNull.
Proof.
  intros Hlt Hc Hun r.
  assert (Hd : dongle (snd r) = set_watcherCb s JNull (dongle w)).
  { subst r. apply unwatch_dongle. exact Hlt. }
  split; [|split; [|split]].
  - subst r. unfold unwatch. apply Z.ltb_lt in Hlt. rewrite Hlt.
    unfold then_, unsubscribe. simpl. rewrite Hc, Hun. reflexivity.
  - subst r. unfold unwatch. apply Z.ltb_lt in Hlt. rewrite Hlt.
    unfold then_, unsubscribe. simpl. rewrite Hc, Hun. reflexivity.
  - subst r. unfold unwatch. apply Z.ltb_lt in Hlt. rewrite Hlt.
    unfold then_, unsubscribe. simpl. rewrite Hc, Hun. reflexivity.
  - rewrite Hd. apply read_set_watcherCb.
Qed.

Lemma unwatch_unsubscribe_fails_witness :
  let w := snd (watch env_ok 1 1 0x0038 (JNum 1) (JFun 1%nat)
                  (ready_world all_characteristics)) in
  let c := "6765ed1f4de149e14771a14380c90007"%string in
  let r := unwatch env_unsubscribe_fails 1 w in
  fst r = Rejected (ErrorMsg "Failed to unsubscribe characteristic")
  /\ log (snd r) = log w ++ [BleUnsubscribe c]
  /\ subscribed (snd r) = subscribed w
  /\ read_watcherCb (dongle (snd r)) 1 = JNull.
Proof.
  apply (unwatch_unsubscribe_fails env_unsubscribe_fails 1
           "6765ed1f4de149e14771a14380c90007"%string (Transport 3)).
  - vm_compute. reflexivity.
  - vm_compute. reflexivity.
  - reflexivity.
Defined.

(** ** More on the superwatch *)

(** X7. [superwatch] does not wait for the answer to its SUPERWATCH
    command and does not look at it: once the unsubscribe has succeeded,
    the command is issued and the subscribe follows at once; if that
    succeeds the promise is resolved and the characteristic subscribed,
    whatever the dongle answers to the command (an error, an exception
    code, or nothing at all). *)
Theorem superwatch_ignores_command_reply env dev addresses cb c w :
  superwatchChar (dongle w) = Some c ->
  let array := superwatch_commandArray dev addresses in
  on_unsubscribe env (log w ++ [ConsoleLog array]) c = BleOk ->
  on_subscribe env
    (log w ++ [ConsoleLog array; BleUnsubscribe c;
               MasterCommand (id (dongle w)) OP_SUPERWATCH (Buffer_from array)])
    c = BleOk ->
  let r := superwatch env dev addresses cb w in
  fst r = Resolved tt /\ c ∈ subscribed (snd r).
Proof.
  intros Hc array Hun Hsub r. subst r.
  unfold superwatch. fold array.
  set (payload := Buffer_from array) in *.
  clearbody payload. clearbody array.
  unfold then_, unsubscribe, command, subscribe. simpl.
  rewrite Hc, Hun. simpl.
  destruct (on_command env _ _ _ _); simpl; rewrite Hc;
    rewrite <- !app_assoc; simpl; rewrite Hsub; simpl;
    (split; [reflexivity | set_solver]).
Qed.

Lemma superwatch_ignores_command_reply_witness :
  let r := superwatch env_exception 1 [0x002E; 0x0064; 0x0038] (JFun 1%nat)
             (ready_world all_characteristics) in
  command_onComplete OP_SUPERWATCH None (Some (Response 2 None))
  = Rejected (ErrException 2)
  /\ fst r = Resolved tt
  /\ uuidSuperwatch ∈ subscribed (snd r).
Proof.
  split; [reflexivity|].
  apply (superwatch_ignores_command_reply env_exception 1
           [0x002E; 0x0064; 0x0038] (JFun 1%nat) uuidSuperwatch
           (ready_world all_characteristics)).
  - vm_compute. reflexivity.
  - reflexivity.
  - reflexivity.
Defined.

(** X8. [superwatch] touches one entry of the callback table, that of index
    0x10: the callback of every other index is as before, and so are the
    status characteristics, whatever the BLE stack answers. *)
Theorem superwatch_frame env dev addresses cb s w :
  s <> SLOT_SUPERWATCH ->
  let w1 := snd (superwatch env dev addresses cb w) in
  read_watcherCb (dongle w1) s = read_watcherCb (dongle w) s
  /\ statusChar (dongle w1) = statusChar (dongle w)
  /\ numStatus (dongle w1) = numStatus (dongle w).
Proof.
  intros Hne w1. subst w1. rewrite superwatch_dongle.
  split; [|split; reflexivity].
  apply read_set_watcherCb_ne. congruence.
Qed.

Lemma superwatch_frame_witness :
  let w := snd (watch env_ok 15 1 0x002E (JNum 1) (JFun 1%nat)
                  (ready_world all_characteristics)) in
  let w1 := snd (superwatch env_ok 1 [0x0064] (JFun 2%nat) w) in
  read_watcherCb (dongle w) 15 = JFun 1%nat
  /\ read_watcherCb (dongle w1) 15 = read_watcherCb (dongle w) 15
  /\ statusChar (dongle w1) = statusChar (dongle w)
  /\ numStatus (dongle w1) = numStatus (dongle w).
Proof.
  split; [vm_compute; reflexivity|].
  apply (superwatch_frame env_ok 1 [0x0064] (JFun 2%nat) 15). discriminate.
Defined.

(** ** The address bytes *)

Lemma ToInt32_small z : - 2 ^ 31 <= z < 2 ^ 31 -> ToInt32 z = z.
Proof.
  intros Hz. unfold ToInt32. rewrite Z.mod_small by lia. lia.
Qed.

(** X9. The two address bytes that [watch], [setWatchers] and [superwatch]
    put in their commands are, for a 16-bit address, its high byte and its
    low byte, from which the address is recovered as 256 * hi + lo. An
    address above 16 bits is cut down without notice: [a + 0x10000] gives
    the same two bytes as [a]. *)
Theorem address_bytes a :
  0 <= a < 65536 ->
  Buffer_from [js_shr a 8; js_and a 0xFF] = [a / 256; a mod 256]
  /\ 256 * (a / 256) + a mod 256 = a
  /\ Buffer_from [js_shr (a + 65536) 8; js_and (a + 65536) 0xFF]
     = Buffer_from [js_shr a 8; js_and a 0xFF].
Proof.
  intros Ha.
  assert (Hhi : 0 <= a / 256 < 256).
  { split; [apply Z.div_pos; lia | apply Z.div_lt_upper_bound; lia]. }
  assert (Hlo : 0 <= a mod 256 < 256) by (apply Z.mod_pos_bound; lia).
  assert (Hland : forall z, 0 <= z -> Z.land z 255 = z mod 256).
  { intros z Hz. change 255 with (Z.ones 8). rewrite Z.land_ones by lia.
    reflexivity. }
  assert (H1 : Buffer_from [js_shr a 8; js_and a 0xFF] = [a / 256; a mod 256]).
  { unfold Buffer_from, js_shr, js_and. simpl map.
    rewrite (ToInt32_small a) by lia.
    rewrite (ToInt32_small 255) by lia.
    rewrite Z.shiftr_div_pow2 by lia. change (2 ^ 8) with 256.
    rewrite (Hland a) by lia.
    rewrite (ToInt32_small (a mod 256)) by lia.
    rewrite (Buffer_from_byte (a / 256)) by lia.
    rewrite (Buffer_from_byte (a mod 256)) by lia.
    reflexivity. }
  split; [exact H1|]. split.
  - pose proof (Z.div_mod a 256). lia.
  - rewrite H1.
    unfold Buffer_from, js_shr, js_and. simpl map.
    rewrite (ToInt32_small (a + 65536)) by lia.
    rewrite (ToInt32_small 255) by lia.
    rewrite Z.shiftr_div_pow2 by lia. change (2 ^ 8) with 256.
    rewrite (Hland (a + 65536)) by lia.
    replace (a + 65536) with (a + 256 * 256) by lia.
    rewrite Z.div_add by lia. rewrite Z.mod_add by lia.
    rewrite (ToInt32_small (a mod 256)) by lia.
    rewrite (Hland (a / 256 + 256)) by lia.
    replace (a / 256 + 256) with (a / 256 + 1 * 256) by lia.
    rewrite Z.mod_add by lia.
    rewrite (Z.mod_small (a / 256)) by lia.
    rewrite (Buffer_from_byte (a mod 256)) by lia.
    reflexivity.
Qed.

Lemma address_bytes_witness :
  Buffer_from [js_shr 0x0380 8; js_and 0x0380 0xFF] = [0x0380 / 256; 0x0380 mod 256]
  /\ 256 * (0x0380 / 256) + 0x0380 mod 256 = 0x0380
  /\ Buffer_from [js_shr (0x0380 + 65536) 8; js_and (0x0380 + 65536) 0xFF]
     = Buffer_from [js_shr 0x0380 8; js_and 0x0380 0xFF].
Proof.
  apply (address_bytes 0x0380). lia.
Defined.

(** ** The batch methods *)

Section Batch.

Variable env : Env.

Lemma install_callbacks_cons x rest d :
  install_callbacks (x :: rest) d
  = install_callbacks rest
      (set_watcherCb (Watcher.slot x) (Watcher.cb x) d).
Proof. reflexivity. Qed.

Lemma setWatchers_unsubscribe_dongle watchers :
  forall unsub entries w,
    dongle (snd (setWatchers_unsubscribe env watchers unsub entries w))
    = install_callbacks watchers (dongle w).
Proof.
  induction watchers as [|x rest IH]; intros unsub entries w.
  - reflexivity.
  - rewrite install_callbacks_cons. cbn [setWatchers_unsubscribe].
    pose proof (unsubscribe_dongle env
                  (statusChar (dongle w) !! Watcher.slot x) w) as Hd.
    destruct (unsubscribe env (statusChar (dongle w) !! Watcher.slot x) w)
      as [p w1].
    simpl in Hd. rewrite IH. simpl. rewrite Hd. reflexivity.
Qed.

Lemma setWatchers_subscribe_dongle watchers :
  forall sub w,
    dongle (snd (setWatchers_subscribe env watchers sub w)) = dongle w.
Proof.
  induction watchers as [|x rest IH]; intros sub w; simpl.
  - reflexivity.
  - pose proof (subscribe_dongle env
                  (statusChar (dongle w) !! Watcher.slot x) w) as Hd.
    destruct (subscribe env (statusChar (dongle w) !! Watcher.slot x) w)
      as [p w1].
    simpl in Hd. rewrite IH. exact Hd.
Qed.

(** Whatever happens, [setWatchers] leaves the dongle object with the
    callbacks of all its watchers stored, and nothing else changed. *)
Lemma setWatchers_dongle watchers w :
  dongle (snd (setWatchers env (ManyWatchers watchers) w))
  = install_callbacks watchers (dongle w).
Proof.
  unfold setWatchers.
  pose proof (setWatchers_unsubscribe_dongle watchers [] [] w) as Hd.
  destruct (setWatchers_unsubscribe env watchers [] [] w)
    as [[unsub entries] w1].
  simpl in Hd.
  destruct (Promise_all unsub); simpl; try exact Hd.
  unfold then_.
  pose proof (command_dongle env (id (dongle w1)) OP_WATCH
                (Buffer_from entries) w1) as Hc.
  destruct (command env (id (dongle w1)) OP_WATCH (Buffer_from entries) w1)
    as [[[]|e|] w2]; simpl in *; try (rewrite Hc; exact Hd).
  pose proof (setWatchers_subscribe_dongle watchers [] w2) as Hs.
  destruct (setWatchers_subscribe env watchers [] w2) as [sub w3].
  simpl in *. rewrite Hs, Hc. exact Hd.
Qed.

Lemma install_callbacks_other watchers :
  forall d s,
    s ∉ map Watcher.slot watchers ->
    read_watcherCb (install_callbacks watchers d) s = read_watcherCb d s.
Proof.
  induction watchers as [|x rest IH]; intros d s Hs.
  - reflexivity.
  - rewrite install_callbacks_cons.
    simpl in Hs. apply not_elem_of_cons in Hs as [Hne Hs].
    rewrite IH by exact Hs.
    apply read_set_watcherCb_ne. congruence.
Qed.

Lemma install_callbacks_member watchers :
  forall d x,
    NoDup (map Watcher.slot watchers) ->
    x ∈ watchers ->
    read_watcherCb (install_callbacks watchers d) (Watcher.slot x)
    = Watcher.cb x.
Proof.
  induction watchers as [|y rest IH]; intros d x Hnd Hx.
  - inversion Hx.
  - rewrite install_callbacks_cons.
    simpl in Hnd. apply NoDup_cons in Hnd as [Hy Hnd].
    apply elem_of_cons in Hx as [->|Hx].
    + rewrite install_callbacks_other by exact Hy.
      apply read_set_watcherCb.
    + apply IH; assumption.
Qed.

(** X11. [setWatchers] stores the callback of every watcher it is given
    and never takes one back: for watchers on different slots, after the
    call the table holds each watcher's callback at its slot, and every
    slot that is not named is as before. This holds whatever the BLE
    stack and the dongle answer, so also when the WATCH command is refused
    or an unsubscribe fails. *)
Theorem setWatchers_callbacks_stay watchers w :
  NoDup (map Watcher.slot watchers) ->
  let r := setWatchers env (ManyWatchers watchers) w in
  (forall x, x ∈ watchers ->
             read_watcherCb (dongle (snd r)) (Watcher.slot x) = Watcher.cb x)
  /\ (forall s, s ∉ map Watcher.slot watchers ->
                read_watcherCb (dongle (snd r)) s = read_watcherCb (dongle w) s).
Proof.
  intros Hnd r. subst r. rewrite setWatchers_dongle. split.
  - intros x Hx. apply install_callbacks_member; assumption.
  - intros s Hs. apply install_callbacks_other. exact Hs.
Qed.

(** X10. [setWatchers] given the one Watcher built from the arguments of a
    [watch] call on a valid slot does what that [watch] call does: the same
    promise outcome, the same callback table, the same log and the same
    subscriptions. *)
Theorem setWatchers_one_is_watch s dev address length cb w :
  s < numStatus (dongle w) ->
  setWatchers env (OneWatcher (Watcher.constructor s dev address length cb)) w
  = watch env s dev address length cb w.
Proof.
  intros Hlt. unfold setWatchers, watch, Watcher.constructor.
  destruct (default_length length cb) as [len' cb'].
  apply Z.ltb_lt in Hlt. rewrite Hlt.
  unfold then_, unsubscribe, command, subscribe, watcher_entry. simpl.
  destruct (statusChar (dongle w) !! s) as [c|] eqn:Hs; simpl;
    [|reflexivity].
  destruct (on_unsubscribe env (log w) c); simpl; try reflexivity.
  destruct (on_command env _ _ _ _) as [err resp|]; simpl; [|reflexivity].
  destruct (command_onComplete OP_WATCH err resp) as [[]|e|]; simpl;
    try reflexivity.
  rewrite Hs. simpl.
  destruct (on_subscribe env _ c); reflexivity.
Qed.

End Batch.

Lemma setWatchers_callbacks_stay_witness :
  let watchers := [Watcher.constructor 0 1 0x0056 (JNum 2) (JFun 1%nat);
                   Watcher.constructor 2 1 0x0029 (JFun 2%nat) JUndefined] in
  let r := setWatchers env_exception (ManyWatchers watchers)
             (ready_world all_characteristics) in
  fst r = Rejected (ErrException 2)
  /\ (forall x, x ∈ watchers ->
                read_watcherCb (dongle (snd r)) (Watcher.slot x) = Watcher.cb x)
  /\ (forall s, s ∉ map Watcher.slot watchers ->
                read_watcherCb (dongle (snd r)) s
                = read_watcherCb (dongle (ready_world all_characteristics)) s).
Proof.
  split; [vm_compute; reflexivity|].
  apply (setWatchers_callbacks_stay env_exception
           [Watcher.constructor 0 1 0x0056 (JNum 2) (JFun 1%nat);
            Watcher.constructor 2 1 0x0029 (JFun 2%nat) JUndefined]
           (ready_world all_characteristics)).
  vm_compute. repeat constructor; set_solver.
Defined.

Lemma setWatchers_one_is_watch_witness :
  setWatchers env_ok
    (OneWatcher (Watcher.constructor 2 1 0x0029 (JFun 2%nat) JUndefined))
    (ready_world all_characteristics)
  = watch env_ok 2 1 0x0029 (JFun 2%nat) JUndefined
      (ready_world all_characteristics).
Proof.
  apply (setWatchers_one_is_watch env_ok 2 1 0x0029 (JFun 2%nat) JUndefined
           (ready_world all_characteristics)).
  vm_compute. reflexivity.
Defined.

Lemma Promise_all_resolved n : Promise_all (replicate n (Resolved tt)) = Resolved tt.
Proof. induction n as [|n IH]; simpl; [reflexivity | exact IH]. Qed.

Lemma Promise_all_subscribed_resolved n :
  Promise_all_subscribed (replicate n (Resolved tt)) = Resolved tt.
Proof.
  unfold Promise_all_subscribed.
  replace (existsb rejected_in_executor (replicate n (Resolved tt))) with false.
  - apply Promise_all_resolved.
  - induction n as [|n IH]; simpl; [reflexivity | exact IH].
Qed.

Lemma setWatchers_unsubscribe_ok env sc :
  (forall h c, on_unsubscribe env h c = BleOk) ->
  forall watchers cs,
    Forall2 (fun x c => sc !! Watcher.slot x = Some c) watchers cs ->
    forall unsub entries w,
      statusChar (dongle w) = sc ->
      exists w',
        setWatchers_unsubscribe env watchers unsub entries w
        = (unsub ++ replicate (length watchers) (Resolved tt),
           entries ++ flat_map watcher_entry watchers, w')
        /\ log w' = log w ++ map BleUnsubscribe cs.
Proof.
  intros Hok watchers cs HF.
  induction HF as [|x c rest cs' Hx HF IH]; intros unsub entries w Hsc.
  - exists w. simpl. rewrite !app_nil_r. split; reflexivity.
  - cbn [setWatchers_unsubscribe]. rewrite Hsc, Hx.
    unfold unsubscribe. rewrite Hok.
    edestruct (IH (unsub ++ [Resolved tt]) (entries ++ watcher_entry x))
      as (w' & Hrun & Hlog); [|rewrite Hrun; exists w'; split].
    + simpl. exact Hsc.
    + cbn [length replicate flat_map]. rewrite <- !app_assoc. reflexivity.
    + rewrite Hlog. simpl. rewrite <- app_assoc. reflexivity.
Qed.

Lemma setWatchers_subscribe_ok env sc :
  (forall h c, on_subscribe env h c = BleOk) ->
  forall watchers cs,
    Forall2 (fun x c => sc !! Watcher.slot x = Some c) watchers cs ->
    forall sub w,
      statusChar (dongle w) = sc ->
      exists w',
        setWatchers_subscribe env watchers sub w
        = (sub ++ replicate (length watchers) (Resolved tt), w')
        /\ log w' = log w ++ map BleSubscribe cs
        /\ (forall c, c ∈ cs \/ c ∈ subscribed w -> c ∈ subscribed w').
Proof.
  intros Hok watchers cs HF.
  induction HF as [|x c rest cs' Hx HF IH]; intros sub w Hsc.
  - exists w. simpl. rewrite !app_nil_r.
    split; [reflexivity|]. split; [reflexivity|].
    intros c [Hc|Hc]; [inversion Hc | exact Hc].
  - cbn [setWatchers_subscribe]. rewrite Hsc, Hx.
    unfold subscribe. rewrite Hok.
    edestruct (IH (sub ++ [Resolved tt])) as (w' & Hrun & Hlog & Hsub);
      [|rewrite Hrun; exists w'; split; [|split]].
    + simpl. exact Hsc.
    + cbn [length replicate]. rewrite <- !app_assoc. reflexivity.
    + rewrite Hlog. simpl. rewrite <- app_assoc. reflexivity.
    + intros c0 Hc0. apply Hsub. simpl.
      destruct Hc0 as [Hc0|Hc0]; [|set_solver].
      apply elem_of_cons in Hc0 as [->|Hc0]; [set_solver | left; exact Hc0].
Qed.

Lemma watcher_entries_length watchers :
  length (Buffer_from (flat_map watcher_entry watchers))
  = (5 * length watchers)%nat.
Proof.
  unfold Buffer_from. rewrite length_map.
  induction watchers as [|x rest IH]; [reflexivity|].
  cbn [flat_map]. rewrite length_app, IH. simpl. lia.
Qed.

(** X12. [setWatchers] on watchers whose slots all have their
    characteristic, when every unsubscribe and subscribe succeeds and the
    dongle answers the WATCH command with status 0: the promise is
    resolved; all the unsubscribes are issued first, in the order of the
    list, then one single WATCH command whose payload is the five bytes
    of each watcher one after the other, then all the subscribes, in
    order; and every named characteristic is left subscribed. *)
Theorem setWatchers_all_ok env watchers cs w :
  Forall2 (fun x c => statusChar (dongle w) !! Watcher.slot x = Some c)
    watchers cs ->
  (forall h c, on_unsubscribe env h c = BleOk) ->
  (forall h c, on_subscribe env h c = BleOk) ->
  (forall h payload,
     on_command env h (id (dongle w)) OP_WATCH payload
     = CmdDone None (Some (Response 0 (Some [0])))) ->
  let r := setWatchers env (ManyWatchers watchers) w in
  let payload := Buffer_from (flat_map watcher_entry watchers) in
  fst r = Resolved tt
  /\ log (snd r)
     = log w ++ map BleUnsubscribe cs
       ++ [MasterCommand (id (dongle w)) OP_WATCH payload]
       ++ map BleSubscribe cs
  /\ length payload = (5 * length watchers)%nat
  /\ (forall c, c ∈ cs -> c ∈ subscribed (snd r)).
Proof.
  intros HF Hun Hsub Hcmd r payload.
  assert (Hrun : fst r = Resolved tt
                 /\ log (snd r)
                    = log w ++ map BleUnsubscribe cs
                      ++ [MasterCommand (id (dongle w)) OP_WATCH payload]
                      ++ map BleSubscribe cs
                 /\ (forall c, c ∈ cs -> c ∈ subscribed (snd r))).
  { subst r payload. unfold setWatchers.
    destruct (setWatchers_unsubscribe_ok env (statusChar (dongle w)) Hun
                watchers cs HF [] [] w eq_refl) as (w1 & Hrun1 & Hlog1).
    pose proof (setWatchers_unsubscribe_dongle env watchers [] [] w) as Hd1.
    rewrite Hrun1 in *. simpl in Hd1. cbn [app].
    rewrite Promise_all_resolved.
    unfold then_, command.
    assert (Hid : id (dongle w1) = id (dongle w)).
    { rewrite Hd1. clear. generalize (dongle w).
      induction watchers as [|x rest IH]; intros d; [reflexivity|].
      rewrite install_callbacks_cons, IH. reflexivity. }
    assert (Hsc : statusChar (dongle w1) = statusChar (dongle w)).
    { rewrite Hd1. clear. generalize (dongle w).
      induction watchers as [|x rest IH]; intros d; [reflexivity|].
      rewrite install_callbacks_cons, IH. reflexivity. }
    rewrite Hid, Hcmd.
    change (command_onComplete OP_WATCH None (Some (Response 0 (Some [0]))))
      with (@Resolved unit tt).
    cbv iota beta.
    destruct (setWatchers_subscribe_ok env (statusChar (dongle w)) Hsub
                watchers cs HF []
                (emit_event
                   (MasterCommand (id (dongle w)) OP_WATCH
                      (Buffer_from (flat_map watcher_entry watchers))) w1)
                Hsc) as (w2 & Hrun2 & Hlog2 & Hsub2).
    rewrite Hrun2. cbn [app fst snd].
    split; [apply Promise_all_subscribed_resolved|]. split.
    - rewrite Hlog2. simpl. rewrite Hlog1. rewrite <- !app_assoc. reflexivity.
    - intros c Hc. apply Hsub2. left. exact Hc. }
  destruct Hrun as (H1 & H2 & H3).
  split; [exact H1|]. split; [exact H2|].
  split; [apply watcher_entries_length | exact H3].
Qed.

Lemma setWatchers_all_ok_witness :
  let w := ready_world all_characteristics in
  let watchers := [Watcher.constructor 0 1 0x0056 (JNum 2) (JFun 1%nat);
                   Watcher.constructor 2 1 0x0029 (JFun 2%nat) JUndefined] in
  let cs := ["6765ed1f4de149e14771a14380c90006";
             "6765ed1f4de149e14771a14380c90008"]%string in
  let r := setWatchers env_ok (ManyWatchers watchers) w in
  let payload := Buffer_from (flat_map watcher_entry watchers) in
  payload = [0; 1; 0x00; 0x56; 2; 2; 1; 0x00; 0x29; 1]
  /\ fst r = Resolved tt
  /\ log (snd r)
     = log w ++ map BleUnsubscribe cs
       ++ [MasterCommand (id (dongle w)) OP_WATCH payload]
       ++ map BleSubscribe cs
  /\ length payload = (5 * length watchers)%nat
  /\ (forall c, c ∈ cs -> c ∈ subscribed (snd r)).
Proof.
  split; [vm_compute; reflexivity|].
  apply (setWatchers_all_ok env_ok
           [Watcher.constructor 0 1 0x0056 (JNum 2) (JFun 1%nat);
            Watcher.constructor 2 1 0x0029 (JFun 2%nat) JUndefined]
           ["6765ed1f4de149e14771a14380c90006";
            "6765ed1f4de149e14771a14380c90008"]%string
           (ready_world all_characteristics)).
  - repeat constructor; vm_compute; reflexivity.
  - reflexivity.
  - reflexivity.
  - reflexivity.
Defined.

Lemma Promise_all_pending l :
  Pending ∈ l -> forall a, Promise_all l <> Resolved a.
Proof.
  induction l as [|p rest IH]; intros Hin a.
  - inversion Hin.
  - apply elem_of_cons in Hin as [<-|Hin]; simpl.
    + destruct (Promise_all rest); discriminate.
    + destruct p as [u|e|]; try discriminate.
      * apply IH. exact Hin.
      * destruct (Promise_all rest); discriminate.
Qed.

Lemma unsubscribe_effects env c w :
  exists evs,
    log (snd (unsubscribe env c w)) = log w ++ evs
    /\ Forall unsubscribe_event evs
    /\ subscribed (snd (unsubscribe env c w)) ⊆ subscribed w
    /\ (c = None -> fst (unsubscribe env c w) = Pending).
Proof.
  unfold unsubscribe. destruct c as [ch|].
  - exists [BleUnsubscribe ch].
    assert (He : Forall unsubscribe_event [BleUnsubscribe ch]).
    { constructor; [left; eexists; reflexivity | constructor]. }
    destruct (on_unsubscribe env (log w) ch); simpl;
      (split; [reflexivity|]); (split; [exact He|]);
      (split; [set_solver | discriminate]).
  - exists [ConsoleError "Unknown characterstic"]. simpl.
    split; [reflexivity|]. split.
    + constructor; [right; reflexivity | constructor].
    + split; [set_solver | reflexivity].
Qed.

Lemma setWatchers_unsubscribe_effects env sc watchers :
  forall unsub entries w,
    statusChar (dongle w) = sc ->
    let r := setWatchers_unsubscribe env watchers unsub entries w in
    exists ps evs,
      fst (fst r) = unsub ++ ps
      /\ log (snd r) = log w ++ evs
      /\ Forall unsubscribe_event evs
      /\ subscribed (snd r) ⊆ subscribed w
      /\ (forall x, x ∈ watchers -> sc !! Watcher.slot x = None -> Pending ∈ ps).
Proof.
  induction watchers as [|x rest IH]; intros unsub entries w Hsc r; subst r.
  - exists [], []. simpl. rewrite !app_nil_r.
    repeat split; try reflexivity; [constructor|].
    intros x Hx. inversion Hx.
  - cbn [setWatchers_unsubscribe]. rewrite Hsc.
    destruct (unsubscribe_effects env (sc !! Watcher.slot x) w)
      as (evs1 & Hlog1 & Hev1 & Hsub1 & Hpend1).
    pose proof (unsubscribe_dongle env (sc !! Watcher.slot x) w) as Hd1.
    destruct (unsubscribe env (sc !! Watcher.slot x) w) as [p w1].
    simpl in Hlog1, Hsub1, Hpend1, Hd1.
    edestruct (IH (unsub ++ [p]) (entries ++ watcher_entry x)
                 (with_dongle
                    (set_watcherCb (Watcher.slot x) (Watcher.cb x) (dongle w1))
                    w1))
      as (ps & evs & Hps & Hlog & Hev & Hsub & Hpend).
    { simpl. rewrite Hd1. exact Hsc. }
    exists (p :: ps), (evs1 ++ evs).
    split; [rewrite Hps, <- app_assoc; reflexivity|].
    split; [rewrite Hlog; simpl; rewrite Hlog1, <- app_assoc; reflexivity|].
    split; [apply Forall_app; split; assumption|].
    split; [simpl in Hsub; set_solver|].
    intros y Hy Hnone. apply elem_of_cons in Hy as [->|Hy].
    + rewrite (Hpend1 Hnone). left.
    + right. apply (Hpend y Hy Hnone).
Qed.

(** X13. [setWatchers] has no test on the slot. As soon as one of its
    watchers names a slot without a status characteristic (as every slot
    number from [numStatus] on is), its promise is never resolved, whatever
    the BLE stack answers; no WATCH command is sent and nothing is
    subscribed: all that is issued are unsubscribes. *)
Theorem setWatchers_missing_characteristic env watchers x w :
  x ∈ watchers ->
  statusChar (dongle w) !! Watcher.slot x = None ->
  let r := setWatchers env (ManyWatchers watchers) w in
  fst r <> Resolved tt
  /\ (exists evs, log (snd r) = log w ++ evs /\ Forall unsubscribe_event evs)
  /\ subscribed (snd r) ⊆ subscribed w.
Proof.
  intros Hx Hnone r. subst r. unfold setWatchers.
  destruct (setWatchers_unsubscribe_effects env (statusChar (dongle w))
              watchers [] [] w eq_refl)
    as (ps & evs & Hps & Hlog & Hev & Hsub & Hpend).
  destruct (setWatchers_unsubscribe env watchers [] [] w)
    as [[unsub entries] w1].
  simpl in Hps, Hlog, Hsub. subst unsub.
  pose proof (Promise_all_pending ps (Hpend x Hx Hnone)) as Hnot.
  destruct (Promise_all ps) as [u|e|]; simpl.
  - exfalso. apply (Hnot u). reflexivity.
  - split; [discriminate|]. split; [exists evs; split; assumption | exact Hsub].
  - split; [discriminate|]. split; [exists evs; split; assumption | exact Hsub].
Qed.

Lemma setWatchers_missing_characteristic_witness :
  let w := ready_world all_characteristics in
  let watchers := [Watcher.constructor 0 1 0x0056 (JNum 2) (JFun 1%nat);
                   Watcher.constructor 20 1 0x0029 (JNum 1) (JFun 2%nat)] in
  let r := setWatchers env_ok (ManyWatchers watchers) w in
  fst r <> Resolved tt
  /\ (exists evs, log (snd r) = log w ++ evs /\ Forall unsubscribe_event evs)
  /\ subscribed (snd r) ⊆ subscribed w.
Proof.
  apply (setWatchers_missing_characteristic env_ok
           [Watcher.constructor 0 1 0x0056 (JNum 2) (JFun 1%nat);
            Watcher.constructor 20 1 0x0029 (JNum 1) (JFun 2%nat)]
           (Watcher.constructor 20 1 0x0029 (JNum 1) (JFun 2%nat))
           (ready_world all_characteristics)).
  - set_solver.
  - vm_compute. reflexivity.
Defined.

Lemma clear_callbacks_numStatus slots :
  forall d, numStatus (clear_callbacks slots d) = numStatus d
            /\ id (clear_callbacks slots d) = id d.
Proof.
  induction slots as [|s rest IH]; intros d; [split; reflexivity|].
  unfold clear_callbacks in *. simpl.
  destruct (IH (set_watcherCb s JNull d)) as [H1 H2].
  rewrite H1, H2. split; reflexivity.
Qed.

Lemma clear_callbacks_app slots1 slots2 d :
  clear_callbacks (slots1 ++ slots2) d
  = clear_callbacks slots2 (clear_callbacks slots1 d).
Proof. unfold clear_callbacks. apply fold_left_app. Qed.

Lemma clear_callbacks_read slots :
  forall d s,
    read_watcherCb (clear_callbacks slots d) s
    = if bool_decide (s ∈ slots) then JNull else read_watcherCb d s.
Proof.
  induction slots as [|s0 rest IH] using rev_ind; intros d s.
  - reflexivity.
  - rewrite clear_callbacks_app. unfold clear_callbacks at 1. simpl.
    destruct (decide (s = s0)) as [->|Hne].
    + rewrite read_set_watcherCb.
      rewrite bool_decide_eq_true_2 by set_solver. reflexivity.
    + rewrite read_set_watcherCb_ne by congruence. rewrite IH.
      destruct (decide (s ∈ rest)) as [Hin|Hnin].
      * rewrite !bool_decide_eq_true_2 by set_solver. reflexivity.
      * rewrite !bool_decide_eq_false_2 by set_solver. reflexivity.
Qed.

Lemma clearWatchers_loop_effects env N watchers :
  forall unsub entries w,
    numStatus (dongle w) = N ->
    let r := clearWatchers_loop env watchers unsub entries w in
    let slots := filter (fun s => s < N) (map Watcher.slot watchers) in
    exists evs,
      snd (fst r) = entries ++ slots
      /\ log (snd r) = log w ++ evs
      /\ Forall unsubscribe_event evs
      /\ dongle (snd r) = clear_callbacks slots (dongle w).
Proof.
  induction watchers as [|x rest IH]; intros unsub entries w HN r slots;
    subst r slots.
  - exists []. simpl. rewrite !app_nil_r. repeat split; constructor.
  - cbn [clearWatchers_loop map]. rewrite HN. rewrite filter_cons.
    destruct (Z.ltb_spec (Watcher.slot x) N) as [Hlt|Hge].
    + rewrite decide_True by exact Hlt.
      set (w1 := with_dongle
                   (set_watcherCb (Watcher.slot x) JNull (dongle w)) w).
      destruct (unsubscribe_effects env
                  (statusChar (dongle w1) !! Watcher.slot x) w1)
        as (evs1 & Hlog1 & Hev1 & _ & _).
      pose proof (unsubscribe_dongle env
                    (statusChar (dongle w1) !! Watcher.slot x) w1) as Hd1.
      destruct (unsubscribe env (statusChar (dongle w1) !! Watcher.slot x) w1)
        as [p w2].
      simpl in Hlog1, Hd1.
      destruct (IH (unsub ++ [p]) (entries ++ [Watcher.slot x]) w2)
        as (evs & Hent & Hlog & Hev & Hd).
      { rewrite Hd1. exact HN. }
      exists (evs1 ++ evs).
      split; [rewrite Hent, <- app_assoc; reflexivity|].
      split; [rewrite Hlog, Hlog1, <- app_assoc; reflexivity|].
      split; [apply Forall_app; split; assumption|].
      rewrite Hd, Hd1. reflexivity.
    + rewrite decide_False by lia.
      apply IH. exact HN.
Qed.

(** X14. [clearWatchers] passes over the watchers whose slot is not below
    [numStatus] and clears the callback of the others; it always sends one
    UNWATCH command, whose payload is the list of the slots it kept, in
    order (empty when none is kept), after the unsubscribes; and its
    promise ends as the dongle's answer to that command decides: no
    unsubscribe, failed or unanswered, has a say in it. *)
Theorem clearWatchers_effects env watchers w :
  let r := clearWatchers env watchers w in
  let slots := filter (fun s => s < numStatus (dongle w))
                 (map Watcher.slot watchers) in
  exists evs,
    log (snd r)
    = log w ++ evs
      ++ [MasterCommand (id (dongle w)) OP_UNWATCH (Buffer_from slots)]
    /\ Forall unsubscribe_event evs
    /\ fst r
       = match on_command env (log w ++ evs) (id (dongle w)) OP_UNWATCH
                 (Buffer_from slots) with
         | CmdDone err resp => command_onComplete OP_UNWATCH err resp
         | CmdNever => Pending
         end
    /\ (forall s, read_watcherCb (dongle (snd r)) s
                  = if bool_decide (s ∈ slots) then JNull
                    else read_watcherCb (dongle w) s).
Proof.
  intros r slots. subst r. unfold clearWatchers.
  destruct (clearWatchers_loop_effects env (numStatus (dongle w)) watchers
              [] [] w eq_refl) as (evs & Hent & Hlog & Hev & Hd).
  fold slots in Hent, Hd.
  destruct (clearWatchers_loop env watchers [] [] w) as [[unsub entries] w1].
  simpl in Hent, Hlog, Hd. subst entries.
  destruct (clear_callbacks_numStatus slots (dongle w)) as [_ Hid].
  exists evs. unfold command. rewrite Hlog, Hd, Hid.
  split; [|split; [exact Hev|split]].
  - destruct (on_command env _ _ _ _); simpl; rewrite Hlog, <- app_assoc;
      reflexivity.
  - destruct (on_command env _ _ _ _); reflexivity.
  - intros s.
    destruct (on_command env _ _ _ _); simpl; rewrite Hd;
      apply clear_callbacks_read.
Qed.

Example clearWatchers_skips_invalid :
  let w := snd (watch env_ok 1 1 0x0038 (JNum 1) (JFun 1%nat)
                  (ready_world all_characteristics)) in
  let r := clearWatchers env_unsubscribe_fails
             [Watcher.constructor 25 1 0x0029 (JNum 1) (JFun 2%nat);
              Watcher.constructor 1 1 0x0038 (JNum 1) (JFun 1%nat)] w in
  fst r = Resolved tt
  /\ log (snd r)
     = log w ++ [BleUnsubscribe "6765ed1f4de149e14771a14380c90007";
                 MasterCommand 254 OP_UNWATCH [1]]
  /\ read_watcherCb (dongle (snd r)) 1 = JNull.
Proof. vm_compute. repeat split; reflexivity. Qed.

(** ** The tables left by [inspectDevice] *)

Lemma inspect_statusChar_lookup characteristics uuids :
  forall i k c,
    inspect_statusChar characteristics i uuids !! k = Some c
    <-> exists n : nat,
          k = i + Z.of_nat n /\ uuids !! n = Some c /\ c ∈ characteristics.
Proof.
  induction uuids as [|u rest IH]; intros i k c; simpl.
  - rewrite lookup_empty. split; [discriminate|].
    intros (n & _ & Hn & _). rewrite lookup_nil in Hn. discriminate.
  - assert (Hrest : inspect_statusChar characteristics (i + 1) rest !! k = Some c
                    <-> exists n : nat,
                          k = i + Z.of_nat (S n) /\ rest !! n = Some c
                          /\ c ∈ characteristics).
    { rewrite IH. split; intros (n & Hk & Hn & Hc); exists n;
        (split; [lia | split; assumption]). }
    unfold findWhere.
    destruct (decide (u ∈ characteristics)) as [Hu|Hu].
    + rewrite bool_decide_eq_true_2 by exact Hu.
      destruct (decide (k = i)) as [->|Hne].
      * rewrite lookup_insert_eq. split.
        -- intros [= <-]. exists 0%nat. split; [lia | split; [reflexivity|exact Hu]].
        -- intros (n & Hk & Hn & Hc). destruct n as [|n]; [exact Hn | lia].
      * rewrite lookup_insert_ne by congruence. rewrite Hrest. split.
        -- intros (n & Hk & Hn & Hc). exists (S n). split; [exact Hk|].
           split; [exact Hn | exact Hc].
        -- intros (n & Hk & Hn & Hc). destruct n as [|n]; [lia|].
           exists n. split; [exact Hk | split; [exact Hn | exact Hc]].
    + rewrite bool_decide_eq_false_2 by exact Hu. rewrite Hrest. split.
      * intros (n & Hk & Hn & Hc). exists (S n). split; [exact Hk|].
        split; [exact Hn | exact Hc].
      * intros (n & Hk & Hn & Hc). destruct n as [|n].
        -- simpl in Hn. injection Hn as ->. contradiction.
        -- exists n. split; [exact Hk | split; [exact Hn | exact Hc]].
Qed.

(** X15. After [inspectDevice], slot [k] has a status characteristic
    exactly when [k] is one of 0..19 and the UUID listed for it in
    [uuidStatus] is among the characteristics the peripheral offers; the
    handle is then that UUID. No index from [numStatus] on, and no negative
    one, has a characteristic. *)
Theorem ready_statusChar characteristics product k c :
  statusChar (ready_dongle characteristics product) !! k = Some c
  <-> 0 <= k < numStatus (ready_dongle characteristics product)
      /\ uuidStatus !! Z.to_nat k = Some c
      /\ c ∈ characteristics.
Proof.
  unfold ready_dongle.
  cbn [statusChar numStatus]. rewrite inspect_statusChar_lookup. split.
  - intros (n & -> & Hn & Hc).
    apply lookup_lt_Some in Hn as Hlen.
    rewrite Z.add_0_l, Nat2Z.id.
    apply Nat2Z.inj_lt in Hlen.
    split; [split; [apply Nat2Z.is_nonneg | exact Hlen] | split; assumption].
  - intros (Hk & Hn & Hc). exists (Z.to_nat k).
    split; [lia | split; assumption].
Qed.

(** X16. On a dongle that has just been connected and inspected no
    notification reaches a callback: whatever characteristics were found,
    [onStatus] leaves the world as it is for every slot and payload. *)
Theorem ready_no_callbacks characteristics slot data :
  onStatus slot data (ready_world characteristics)
  = ready_world characteristics.
Proof.
  apply onStatus_not_function. intros f.
  unfold read_watcherCb, ready_world, ready_dongle, inspect_watcherCb.
  cbn [dongle watcherCb]. rewrite lookup_fmap.
  destruct (inspect_statusChar characteristics 0 uuidStatus !! slot);
    discriminate.
Qed.

(** ** More on the command queue *)

Lemma js_and_byte a : js_and a 0xFF = a mod 256.
Proof.
  unfold js_and.
  rewrite (ToInt32_small 255) by lia.
  change 255 with (Z.ones 8). rewrite Z.land_ones by lia.
  change (2 ^ 8) with 256.
  assert (Hm : ToInt32 a mod 256 = a mod 256).
  { unfold ToInt32.
    change (2 ^ 31) with 2147483648. change (2 ^ 32) with 4294967296.
    pose proof (Z.div_mod (a + 2147483648) 4294967296) as Hdm.
    set (q := (a + 2147483648) / 4294967296) in *.
    replace ((a + 2147483648) mod 4294967296 - 2147483648)
      with (a + (- q * 16777216) * 256) by lia.
    apply Z.mod_add. lia. }
  rewrite Hm. apply ToInt32_small.
  pose proof (Z.mod_pos_bound a 256). lia.
Qed.

(** X17. [__command] appends its request at the end of the queue, behind
    those already waiting, with the sequence number the dongle had, a null
    timer and the given timeout (the default when none or 0 is given).
    When other requests were waiting nothing is issued; when the queue was
    empty the request is announced by 'sendCommand'. *)
Theorem __command_enqueues env cmd cb t w :
  let w1 := __command env cmd cb t w in
  commandQueue (dongle w1)
  = commandQueue (dongle w)
    ++ [{| command_bytes := cmd;
           sequence := commandSequence (dongle w);
           responseTimer := JNull;
           timeout := timeout_or_default t (dongle w);
           callback := cb |}]
  /\ (commandQueue (dongle w) <> [] -> log w1 = log w)
  /\ (commandQueue (dongle w) = [] ->
      exists evs, log w1 = log w ++ Emit "sendCommand" cmd :: evs).
Proof.
  intros w1. subst w1. unfold __command.
  split; [|split].
  - destruct (bool_decide _); [rewrite sendNextCommand_dongle|]; reflexivity.
  - intros Hq. rewrite bool_decide_eq_false_2; [reflexivity|].
    rewrite length_app. simpl.
    destruct (commandQueue (dongle w)); [contradiction | simpl; lia].
  - intros Hq. rewrite Hq. simpl.
    unfold sendNextCommand, writeCharacteristic. simpl.
    change (isConnected (set_queue _ _ (dongle w)))
      with (isConnected (dongle w)).
    destruct (isConnected (dongle w)); simpl.
    + destruct (commandChar (dongle w)) as [ch|]; simpl.
      * exists [BleWrite ch cmd]. destruct (on_write env _ _ _); simpl;
          rewrite <- app_assoc; reflexivity.
      * exists []. reflexivity.
    + exists []. reflexivity.
Qed.

(** X18. The sequence counter stays a byte: when it is one (as it is from
    the constructor's 0 on), after [__command] it is the next one modulo
    256, so 255 is followed by 0, and it is a byte again. *)
Theorem __command_sequence env cmd cb t w :
  0 <= commandSequence (dongle w) < 256 ->
  let w1 := __command env cmd cb t w in
  commandSequence (dongle w1) = (commandSequence (dongle w) + 1) mod 256
  /\ 0 <= commandSequence (dongle w1) < 256.
Proof.
  intros Hseq w1.
  assert (H1 : commandSequence (dongle w1)
               = (commandSequence (dongle w) + 1) mod 256).
  { subst w1. unfold __command.
    destruct (bool_decide _); [rewrite sendNextCommand_dongle|];
      simpl; apply js_and_byte. }
  split; [exact H1|]. rewrite H1. apply Z.mod_pos_bound. lia.
Qed.

Lemma __command_sequence_witness :
  let w := with_dongle
             (set_queue [] 255 (dongle (ready_world all_characteristics)))
             (ready_world all_characteristics) in
  let w1 := __command env_ok [9] 1%nat None w in
  commandSequence (dongle w1) = (255 + 1) mod 256
  /\ 0 <= commandSequence (dongle w1) < 256.
Proof.
  apply (__command_sequence env_ok [9] 1%nat None
           (with_dongle
              (set_queue [] 255 (dongle (ready_world all_characteristics)))
              (ready_world all_characteristics))).
  vm_compute. split; [discriminate | reflexivity].
Defined.

(** X19. [handleResponseTimeout] called with the [responseTimer] of the
    request at the front of the queue calls that request's callback with
    the 'Timeout' error, removes the request, and moves on to the next
    one: if one is waiting it is announced by 'sendCommand'; no other
    callback is called. Called with any other value it does nothing. *)
Theorem handleResponseTimeout_fails_front env c rest w :
  commandQueue (dongle w) = c :: rest ->
  let w1 := handleResponseTimeout env (responseTimer c) w in
  commandQueue (dongle w1) = rest
  /\ (exists evs,
        log w1
        = log w ++ CommandCallback (callback c) (ErrorMsg "Timeout") :: evs
        /\ filter (fun e => is_CommandCallback e = true) evs = []
        /\ match rest with
           | next :: _ => head evs = Some (Emit "sendCommand" (command_bytes next))
           | [] => evs = []
           end)
  /\ (forall other, other <> responseTimer c ->
                    handleResponseTimeout env other w = w).
Proof.
  intros Hq w1. split; [|split].
  - subst w1. rewrite (handleResponseTimeout_front env _ c rest w Hq eq_refl).
    rewrite sendNextCommand_dongle. reflexivity.
  - subst w1. rewrite (handleResponseTimeout_front env _ c rest w Hq eq_refl).
    unfold sendNextCommand, writeCharacteristic. simpl.
    destruct rest as [|next rest'].
    + exists []. repeat split; reflexivity.
    + simpl.
      change (isConnected (set_queue _ _ (dongle w)))
        with (isConnected (dongle w)).
      destruct (isConnected (dongle w)); simpl.
      * destruct (commandChar (dongle w)) as [ch|]; simpl.
        -- exists [Emit "sendCommand" (command_bytes next);
                   BleWrite ch (command_bytes next)].
           split; [|split; reflexivity].
           destruct (on_write env _ _ _); simpl; rewrite <- !app_assoc;
             reflexivity.
        -- exists [Emit "sendCommand" (command_bytes next)].
           split; [rewrite <- app_assoc; reflexivity | split; reflexivity].
      * exists [Emit "sendCommand" (command_bytes next)].
        split; [rewrite <- app_assoc; reflexivity | split; reflexivity].
  - intros other Hne. unfold handleResponseTimeout. rewrite Hq.
    unfold strict_eq. rewrite bool_decide_eq_false_2 by congruence.
    reflexivity.
Qed.

Lemma handleResponseTimeout_fails_front_witness :
  let w := __command env_ok [4; 5; 6] 8%nat (Some 500)
             (__command env_ok [1; 2; 3] 7%nat (Some 500)
                (ready_world all_characteristics)) in
  let c := {| command_bytes := [1; 2; 3]; sequence := 0;
              responseTimer := JNull; timeout := 500; callback := 7%nat |} in
  let rest := [ {| command_bytes := [4; 5; 6]; sequence := 1;
                   responseTimer := JNull; timeout := 500;
                   callback := 8%nat |} ] in
  let w1 := handleResponseTimeout env_ok (responseTimer c) w in
  commandQueue (dongle w1) = rest
  /\ (exists evs,
        log w1
        = log w ++ CommandCallback (callback c) (ErrorMsg "Timeout") :: evs
        /\ filter (fun e => is_CommandCallback e = true) evs = []
        /\ match rest with
           | next :: _ => head evs = Some (Emit "sendCommand" (command_bytes next))
           | [] => evs = []
           end)
  /\ (forall other, other <> responseTimer c ->
                    handleResponseTimeout env_ok other w = w).
Proof.
  apply (handleResponseTimeout_fails_front env_ok
           {| command_bytes := [1; 2; 3]; sequence := 0;
              responseTimer := JNull; timeout := 500; callback := 7%nat |}
           [ {| command_bytes := [4; 5; 6]; sequence := 1;
                responseTimer := JNull; timeout := 500;
                callback := 8%nat |} ]).
  vm_compute. reflexivity.
Defined.

(** ** After a disconnect *)

(** X20. Once a [disconnect] has been answered by the BLE stack, with or
    without an error, the dongle is not connected; another [disconnect] is
    rejected with a TypeError, [write] issues nothing and
    [writeCharacteristic] is rejected without a reason, each leaving the
    world as it is. *)
Theorem after_disconnect env env' w :
  peripheral (dongle w) <> None ->
  on_disconnect env (log w) <> BleNever ->
  let w1 := snd (disconnect env w) in
  isConnected (dongle w1) = false
  /\ disconnect env' w1 = (Rejected TypeError, w1)
  /\ (forall data, write env' data w1 = (JUndefined, w1))
  /\ (forall c value,
        writeCharacteristic env' c value w1 = (Rejected NoReason, w1)).
Proof.
  intros Hp Hans w1.
  assert (Hd : dongle w1 = drop_connection (dongle w)).
  { subst w1. unfold disconnect.
    destruct (peripheral (dongle w)); [|contradiction].
    destruct (on_disconnect env (log w)); [reflexivity | reflexivity|].
    contradiction. }
  assert (Hconn : isConnected (dongle w1) = false) by (rewrite Hd; reflexivity).
  split; [exact Hconn|]. split; [|split].
  - unfold disconnect. rewrite Hd. reflexivity.
  - intros data. unfold write, write_chain. rewrite Hd. reflexivity.
  - intros c value. unfold writeCharacteristic. rewrite Hconn. reflexivity.
Qed.

Lemma after_disconnect_witness :
  let w := ready_world all_characteristics in
  let w1 := snd (disconnect env_ok w) in
  isConnected (dongle w) = true
  /\ isConnected (dongle w1) = false
  /\ disconnect env_ok w1 = (Rejected TypeError, w1)
  /\ (forall data, write env_ok data w1 = (JUndefined, w1))
  /\ (forall c value,
        writeCharacteristic env_ok c value w1 = (Rejected NoReason, w1)).
Proof.
  split; [vm_compute; reflexivity|].
  apply (after_disconnect env_ok env_ok (ready_world all_characteristics)).
  - vm_compute. discriminate.
  - discriminate.
Defined.

(** X21. [disconnect] does not clear the driver's slot registry: the
    callback table, the status and superwatch characteristics and
    [numStatus] are the same after it as before, whatever the BLE stack
    answers; so [onStatus], when it is called after a disconnect for a slot
    whose callback was installed, still calls that callback. *)
Theorem disconnect_keeps_registry env w :
  let w1 := snd (disconnect env w) in
  watcherCb (dongle w1) = watcherCb (dongle w)
  /\ statusChar (dongle w1) = statusChar (dongle w)
  /\ superwatchChar (dongle w1) = superwatchChar (dongle w)
  /\ numStatus (dongle w1) = numStatus (dongle w)
  /\ (forall slot data f,
        slot < numStatus (dongle w) ->
        read_watcherCb (dongle w) slot = JFun f ->
        log (onStatus slot data w1) = log w1 ++ [WatcherCall f data slot]).
Proof.
  intros w1.
  assert (H : watcherCb (dongle w1) = watcherCb (dongle w)
              /\ statusChar (dongle w1) = statusChar (dongle w)
              /\ superwatchChar (dongle w1) = superwatchChar (dongle w)
              /\ numStatus (dongle w1) = numStatus (dongle w)).
  { subst w1. unfold disconnect.
    destruct (peripheral (dongle w)); [|repeat split].
    destruct (on_disconnect env (log w)); repeat split. }
  destruct H as (H1 & H2 & H3 & H4).
  repeat (split; [assumption|]).
  intros slot data f Hlt Hcb.
  rewrite (onStatus_function slot data f w1); [reflexivity | |].
  - rewrite H4. exact Hlt.
  - unfold read_watcherCb in *. rewrite H1. exact Hcb.
Qed.

(** ** The outcome of a command *)

(** X22. [command] is resolved exactly when the messaging client hands
    over no error and a response without exception code whose first value
    is 0. A response with an exception code rejects it with 'Exception
    <code>', whatever error came with it and whatever its values are. *)
Theorem command_outcome env dest op payload w :
  (fst (command env dest op payload w) = Resolved tt
   <-> exists r vs,
         on_command env (log w) dest op payload = CmdDone None (Some r)
         /\ exceptionCode r = 0
         /\ values r = Some (0 :: vs))
  /\ (forall err r,
        on_command env (log w) dest op payload = CmdDone err (Some r) ->
        exceptionCode r <> 0 ->
        fst (command env dest op payload w)
        = Rejected (ErrException (exceptionCode r))).
Proof.
  unfold command. split.
  - destruct (on_command env (log w) dest op payload) as [err resp|]; simpl.
    + unfold command_onComplete.
      destruct resp as [[code vals]|]; simpl.
      * destruct (decide (code = 0)) as [->|Hne].
        -- rewrite bool_decide_eq_true_2 by reflexivity.
           destruct err as [e|]; simpl.
           ++ split; [discriminate|]. intros (r & vs & [=] & _).
           ++ destruct vals as [[|v vs]|]; simpl.
              ** split; [discriminate|].
                 intros (r & vs & [= <-] & _ & Hv). discriminate.
              ** destruct (decide (v = 0)) as [->|Hv].
                 --- split; [|reflexivity]. intros _.
                     exists (Response 0 (Some (0 :: vs))), vs.
                     repeat split; reflexivity.
                 --- destruct v; try contradiction;
                       (split; [discriminate|]);
                       intros (r & vs' & [= <-] & _ & Hv'); discriminate.
              ** split; [discriminate|].
                 intros (r & vs & [= <-] & _ & Hv). discriminate.
        -- rewrite bool_decide_eq_false_2 by exact Hne. simpl.
           split; [discriminate|].
           intros (r & vs & [= _ <-] & Hc & _). contradiction.
      * destruct err; simpl; (split; [discriminate|]);
          intros (r & vs & [=] & _).
    + split; [discriminate|]. intros (r & vs & [=] & _).
  - intros err r Hcmd Hne. rewrite Hcmd. simpl.
    unfold command_onComplete.
    rewrite bool_decide_eq_false_2 by exact Hne. reflexivity.
Qed.

(** X23. The handlers of the memory requests. [writeMemory] is resolved
    exactly when there is no error, no exception code and the status of
    the response is 0. [readMemory] is resolved with the values of the
    response, present or not, whenever there is a response with neither
    error nor exception code. Both are rejected with 'Exception <code>'
    by a response with an exception code, whatever error came with it. *)
Theorem memory_handlers err resp :
  (writeMemory_onComplete err resp = Resolved tt
   <-> err = None
       /\ exists r, resp = Some r /\ data_exceptionCode r = 0
                    /\ data_status r = Some 0)
  /\ (forall r, err = None -> resp = Some r -> data_exceptionCode r = 0 ->
                readMemory_onComplete err resp = Resolved (data_values r))
  /\ (forall r, resp = Some r -> data_exceptionCode r <> 0 ->
                writeMemory_onComplete err resp
                = Rejected (ErrException (data_exceptionCode r))
                /\ readMemory_onComplete err resp
                   = Rejected (ErrException (data_exceptionCode r))).
Proof.
  unfold writeMemory_onComplete, readMemory_onComplete, exception_or_err.
  split; [|split].
  - destruct resp as [[code vals st]|]; simpl.
    + destruct (decide (code = 0)) as [->|Hne].
      * rewrite bool_decide_eq_true_2 by reflexivity.
        destruct err as [e|]; simpl.
        -- split; [discriminate|]. intros [[=] _].
        -- destruct st as [[|p|p]|]; simpl.
           ++ split; [|reflexivity]. intros _. split; [reflexivity|].
              eexists. repeat split; reflexivity.
           ++ split; [discriminate|].
              intros [_ (r & [= <-] & _ & Hs)]. discriminate.
           ++ split; [discriminate|].
              intros [_ (r & [= <-] & _ & Hs)]. discriminate.
           ++ split; [discriminate|].
              intros [_ (r & [= <-] & _ & Hs)]. discriminate.
      * rewrite bool_decide_eq_false_2 by exact Hne. simpl.
        split; [discriminate|].
        intros [_ (r & [= <-] & Hc & _)]. contradiction.
    + destruct err; simpl; (split; [discriminate|]).
      * intros [[=] _].
      * intros [_ (r & [=] & _)].
  - intros r -> -> Hc. rewrite bool_decide_eq_true_2 by exact Hc. reflexivity.
  - intros r -> Hne. rewrite bool_decide_eq_false_2 by exact Hne.
    split; reflexivity.
Qed.

(** ** The helpers of the demonstration scripts *)

Example zeroPad_3a : zeroPad ["3"; "a"]%char 4 = ["0"; "0"; "3"; "a"]%char.
Proof. reflexivity. Qed.

Example zeroPad_12345 : zeroPad ["1"; "2"; "3"; "4"; "5"]%char 4
                        = ["2"; "3"; "4"; "5"]%char.
Proof. reflexivity. Qed.

(** X24. [zeroPad(number, length)] with a length above 0 gives a string of
    exactly that many characters: the digits with zeros in front when they
    fit, and only the last [length] digits when there are more, the leading
    ones being dropped. With length 0 the digits come back unchanged,
    not the empty string. *)
Theorem zeroPad_result number len :
  (len = 0%nat -> zeroPad number len = number)
  /\ ((0 < len)%nat -> length (zeroPad number len) = len)
  /\ ((0 < len)%nat -> (length number <= len)%nat ->
      zeroPad number len
      = replicate (len - length number) "0"%char ++ number)
  /\ ((0 < len)%nat -> (len < length number)%nat ->
      zeroPad number len = drop (length number - len) number).
Proof.
  unfold zeroPad, slice_from_end. rewrite length_replicate.
  split; [|split; [|split]].
  - intros ->. reflexivity.
  - intros Hlen. destruct len as [|n]; [lia|].
    rewrite length_drop, length_app, length_replicate. lia.
  - intros Hlen Hfit. destruct len as [|n]; [lia|].
    rewrite length_app, length_replicate.
    rewrite drop_app_le by (rewrite length_replicate; lia).
    rewrite drop_replicate. f_equal. f_equal. lia.
  - intros Hlen Hlong. destruct len as [|n]; [lia|].
    rewrite length_app, length_replicate.
    rewrite drop_app_ge by (rewrite length_replicate; lia).
    rewrite length_replicate. f_equal. lia.
Qed.

(** ** The superwatch without its characteristic *)

(** X25. When the superwatch characteristic was not found, [superwatch]
    never settles and sends nothing: the command array and 'Unknown
    characterstic' are logged, no SUPERWATCH command is issued and nothing
    is subscribed. The callback is stored at index 0x10 all the same. *)
Theorem superwatch_missing_characteristic env dev addresses cb w :
  superwatchChar (dongle w) = None ->
  let r := superwatch env dev addresses cb w in
  fst r = Pending
  /\ log (snd r)
     = log w ++ [ConsoleLog (superwatch_commandArray dev addresses);
                 ConsoleError "Unknown characterstic"]
  /\ subscribed (snd r) = subscribed w
  /\ read_watcherCb (dongle (snd r)) SLOT_SUPERWATCH = cb.
Proof.
  intros Hc r.
  split; [|split; [|split]].
  - subst r. unfold superwatch, then_, unsubscribe. simpl. rewrite Hc.
    reflexivity.
  - subst r. unfold superwatch, then_, unsubscribe. simpl. rewrite Hc.
    simpl. rewrite <- app_assoc. reflexivity.
  - subst r. unfold superwatch, then_, unsubscribe. simpl. rewrite Hc.
    reflexivity.
  - subst r. apply superwatch_claims_slot.
Qed.

Lemma superwatch_missing_characteristic_witness :
  let w := ready_world (uuidStatus ++ [uuidTx; uuidRx]) in
  let r := superwatch env_ok 1 [0x0064] (JFun 2%nat) w in
  fst r = Pending
  /\ log (snd r)
     = log w ++ [ConsoleLog (superwatch_commandArray 1 [0x0064]);
                 ConsoleError "Unknown characterstic"]
  /\ subscribed (snd r) = subscribed w
  /\ read_watcherCb (dongle (snd r)) SLOT_SUPERWATCH = JFun 2%nat.
Proof.
  apply (superwatch_missing_characteristic env_ok 1 [0x0064] (JFun 2%nat)
           (ready_world (uuidStatus ++ [uuidTx; uuidRx]))).
  vm_compute. reflexivity.
Defined.
